(** * Shop resolvers: a shallow embedding of [server/src/schemas/resolvers.ts]

    The GraphQL resolvers of the shop are embedded as state-passing
    functions over the three Mongoose collections they touch and over the
    Stripe account they talk to.

    Conventions of the embedding.
    - JavaScript numbers that hold integers ([stock], [quantity], [rating],
      timestamps) are [Z]. Their sums and differences are those of [Z] on
      the safe integers, up to 2^53 - 1 in magnitude ([safe_integer]); the
      statements that give the value of a sum or a difference assume that
      range. Prices are binary64 floats ([PrimFloat.float]).
    - The object literal that [checkout] uses as a map is a finite map; the
      two agree on the keys that name no property of [Object.prototype]
      ([plain_key]).
    - An [async] resolver that throws is an [Outcome] [Thrown]; the
      collections keep whatever was saved before the throw.
    - A collection is the list of its documents in natural order;
      [findById] returns the first document with the identifier.
    - Identifiers are the canonical strings of their ObjectIds, so that
      [item.product.toString() === productId] is equality of strings; the
      cast of a string to an ObjectId is not modelled.
    - The Mongoose schemas ([models/index.js]) are not part of the sources
      read here: documents carry the fields the resolvers and the GraphQL
      types use, and [save] accepts every document.
    - [new Date()] and the identifier minted for a created document are
      arguments of the resolver that needs them; the identifiers of
      subdocuments (reviews, basket lines, orders) are left out.
    - Of [Query], [me], [categoryByName] and [checkout] are embedded; of
      [Mutation], all but [addUser]. [login] takes the password check of the
      model and the token signer as parameters. *)

From Stdlib Require Import ZArith Lia.
From Stdlib Require Import PrimFloat FloatOps SpecFloat Uint63.
From stdpp Require Import gmap strings list pretty.

Open Scope string_scope.
Open Scope list_scope.
Open Scope Z_scope.

(** ** Documents *)

Module Review.
Record t := mk {
  username : string;
  review : string;
  rating : Z;
  dateCreated : Z
}.
End Review.

Module Product.
Record t := mk {
  _id : string;
  name : string;
  description : string;
  imageUrl : string;
  price : float;
  stock : Z;
  reviews : list Review.t;
  onSale : bool;
  salePrice : option float
}.

Definition with_stock (n : Z) (p : t) : t :=
  mk (_id p) (name p) (description p) (imageUrl p) (price p) n
     (reviews p) (onSale p) (salePrice p).

Definition with_reviews (rs : list Review.t) (p : t) : t :=
  mk (_id p) (name p) (description p) (imageUrl p) (price p) (stock p)
     rs (onSale p) (salePrice p).
End Product.

Module BasketItem.
Record t := mk {
  product : string;
  quantity : Z;
  dateAdded : Z
}.
End BasketItem.

Module Order.
Record t := mk {
  products : list string;
  purchaseDate : Z
}.
End Order.

Module User.
Record t := mk {
  _id : string;
  username : string;
  email : string;
  basket : list BasketItem.t;
  orders : list Order.t
}.

Definition with_basket (b : list BasketItem.t) (u : t) : t :=
  mk (_id u) (username u) (email u) b (orders u).

Definition with_orders (os : list Order.t) (u : t) : t :=
  mk (_id u) (username u) (email u) (basket u) os.
End User.

Module Category.
Record t := mk {
  _id : string;
  name : string;
  imageUrl : string;
  products : list string
}.

Definition with_products (ps : list string) (c : t) : t :=
  mk (_id c) (name c) (imageUrl c) ps.
End Category.

(** The three collections of the database [e_shop_db]. *)
Record DB := mkDB {
  Products : list Product.t;
  Users : list User.t;
  Categories : list Category.t
}.

Definition with_Products (ps : list Product.t) (db : DB) : DB :=
  mkDB ps (Users db) (Categories db).
Definition with_Users (us : list User.t) (db : DB) : DB :=
  mkDB (Products db) us (Categories db).
Definition with_Categories (cs : list Category.t) (db : DB) : DB :=
  mkDB (Products db) (Users db) cs.

(** ** The request context *)

(** The payload of the token, as [signToken(username, email, _id)] packs it. *)
Record AuthUser := mkAuthUser {
  auth_id : string;
  auth_username : string;
  auth_email : string
}.

Record Headers := mkHeaders { referer : option string }.

Record IUserContext := mkContext {
  user : option AuthUser;
  headers : option Headers
}.

(** ** Exceptions and the resolver monad *)

Inductive Exception :=
| GraphQLError (message : string) (code : option string)
| Error (message : string)
| TypeError (message : string)
| MongoServerError (message : string)
| StripeError (message : string).

Definition forbiddenException : Exception :=
  GraphQLError "You are not authorized to perform this action." (Some "FORBIDDEN").

Definition productNotFound : Exception :=
  GraphQLError "Product not found." (Some "NOT_FOUND").

Definition categoryNotFound : Exception :=
  GraphQLError "Category not found." (Some "NOT_FOUND").

Definition insufficientStock : Exception :=
  GraphQLError "Insufficient stock." (Some "BAD_REQUEST").

Definition alreadyReviewed : Exception :=
  GraphQLError "You have already reviewed this product." (Some "FORBIDDEN").

Definition notAuthenticated : Exception := Error "User not authenticated".

(** The [extensions.code] of a thrown error, when it has one. *)
Definition error_code (e : Exception) : option string :=
  match e with
  | GraphQLError _ c => c
  | _ => None
  end.

Inductive Outcome (A : Type) :=
| Returned (a : A)
| Thrown (e : Exception).
Arguments Returned {A} a.
Arguments Thrown {A} e.

(** An [async] function over a store [S]: it ends by returning or by
    throwing, and in both cases leaves a store behind. *)
Definition Async (S A : Type) : Type := S -> Outcome A * S.

Definition ret {S A} (a : A) : Async S A := fun s => (Returned a, s).
Definition throw {S A} (e : Exception) : Async S A := fun s => (Thrown e, s).
Definition bind {S A B} (m : Async S A) (k : A -> Async S B) : Async S B :=
  fun s =>
    match m s with
    | (Returned a, s') => k a s'
    | (Thrown e, s') => (Thrown e, s')
    end.
(** An outcome already settled, as the outcome of an [async] function. *)
Definition settle {S A} (o : Outcome A) : Async S A := fun s => (o, s).
Definition get {S} : Async S S := fun s => (Returned s, s).
Definition put {S} (s : S) : Async S unit := fun _ => (Returned tt, s).

Declare Scope async_scope.
Delimit Scope async_scope with async.
Notation "'let*' x ':=' 'await' m 'in' k" := (bind m (fun x => k))
  (at level 10, x name, m at level 200, k at level 200) : async_scope.
Notation "'await' m 'in' k" := (bind m (fun _ => k))
  (at level 10, m at level 200, k at level 200) : async_scope.
Open Scope async_scope.

(** ** The Mongoose model interface *)

Class Document (D : Type) := doc_id : D -> string.
#[export] Instance Product_Document : Document Product.t := Product._id.
#[export] Instance User_Document : Document User.t := User._id.
#[export] Instance Category_Document : Document Category.t := Category._id.

Section Model.
Context {D : Type} `{Document D}.

(** [Model.findById(id)]: the first document with the identifier. *)
Fixpoint findById (id : string) (c : list D) : option D :=
  match c with
  | [] => None
  | d :: c' => if bool_decide (doc_id d = id) then Some d else findById id c'
  end.

(** [doc.save()] of a loaded document: the stored document with the same
    identifier is replaced. *)
Fixpoint save (d : D) (c : list D) : list D :=
  match c with
  | [] => []
  | x :: c' =>
      if bool_decide (doc_id x = doc_id d) then d :: c' else x :: save d c'
  end.

(** [Model.findByIdAndUpdate(id, update, { new: true })]: the updated
    document, or [null] when there is none. *)
Definition findByIdAndUpdate (id : string) (update : D -> D) (c : list D)
  : option D * list D :=
  match findById id c with
  | Some d => (Some (update d), save (update d) c)
  | None => (None, c)
  end.

(** [Model.findByIdAndDelete(id)]. *)
Fixpoint delete_first (id : string) (c : list D) : list D :=
  match c with
  | [] => []
  | x :: c' => if bool_decide (doc_id x = id) then c' else x :: delete_first id c'
  end.

Definition findByIdAndDelete (id : string) (c : list D) : option D * list D :=
  (findById id c, delete_first id c).

(** [Model.create(doc)]: the unique index on [_id] refuses a duplicate. *)
Definition create (d : D) (c : list D) : option (list D) :=
  match findById (doc_id d) c with
  | Some _ => None
  | None => Some (c ++ [d])
  end.
End Model.

Definition duplicateKey : Exception := MongoServerError "E11000 duplicate key error".

(** ** Catalog resolvers *)

(** [ProductInput] of the GraphQL schema. *)
Record IProductInput := mkProductInput {
  in_name : string;
  in_description : string;
  in_imageUrl : string;
  in_price : float;
  in_stock : Z
}.

Definition addProduct (oid : string) (productData : IProductInput)
    (context : IUserContext) : Async DB Product.t :=
  match user context with
  | Some _ =>
      let product :=
        Product.mk oid (in_name productData) (in_description productData)
          (in_imageUrl productData) (in_price productData)
          (in_stock productData) [] false None in
      let* db := await get in
      match create product (Products db) with
      | Some ps => await put (with_Products ps db) in ret product
      | None => throw duplicateKey
      end
  | None => throw forbiddenException
  end.

Definition removeProduct (productId : string) (context : IUserContext)
    : Async DB (option Product.t) :=
  match user context with
  | Some _ =>
      let* db := await get in
      let '(product, ps) := findByIdAndDelete productId (Products db) in
      await put (with_Products ps db) in
      ret product
  | None => throw forbiddenException
  end.

(** [product.stock += quantity] is the sum of two numbers: it is the integer
    sum as long as the operands and the sum are safe integers (see
    [safe_integer] below), which the [Int!] fields of the schema are. *)
Definition addStock (productId : string) (quantity : Z)
    (context : IUserContext) : Async DB Product.t :=
  match user context with
  | Some _ =>
      let* db := await get in
      match findById productId (Products db) with
      | None => throw productNotFound
      | Some product =>
          let product := Product.with_stock (Product.stock product + quantity) product in
          await put (with_Products (save product (Products db)) db) in
          ret product
      end
  | None => throw forbiddenException
  end.

(** [product.stock >= quantity] and [product.stock -= quantity], on the same
    domain of safe integers as [addStock]. *)
Definition removeStock (productId : string) (quantity : Z)
    (context : IUserContext) : Async DB Product.t :=
  match user context with
  | Some _ =>
      let* db := await get in
      match findById productId (Products db) with
      | None => throw productNotFound
      | Some product =>
          if quantity <=? Product.stock product then
            let product := Product.with_stock (Product.stock product - quantity) product in
            await put (with_Products (save product (Products db)) db) in
            ret product
          else throw insufficientStock
      end
  | None => throw forbiddenException
  end.

(** ** Category resolvers *)

Record ICategoryInput := mkCategoryInput {
  in_category_name : string;
  in_category_imageUrl : string
}.

Definition addCategory (oid : string) (categoryData : ICategoryInput)
    (context : IUserContext) : Async DB Category.t :=
  match user context with
  | Some _ =>
      let category :=
        Category.mk oid (in_category_name categoryData)
          (in_category_imageUrl categoryData) [] in
      let* db := await get in
      match create category (Categories db) with
      | Some cs => await put (with_Categories cs db) in ret category
      | None => throw duplicateKey
      end
  | None => throw forbiddenException
  end.

Definition removeCategory (categoryId : string) (context : IUserContext)
    : Async DB (option Category.t) :=
  match user context with
  | Some _ =>
      let* db := await get in
      let '(category, cs) := findByIdAndDelete categoryId (Categories db) in
      await put (with_Categories cs db) in
      ret category
  | None => throw forbiddenException
  end.

(** The resolver answers with the category as it was loaded, before the
    [$push]. *)
Definition addProductToCategory (productId categoryId : string)
    (context : IUserContext) : Async DB Category.t :=
  match user context with
  | Some _ =>
      let* db := await get in
      match findById categoryId (Categories db) with
      | None => throw categoryNotFound
      | Some category =>
          match findById productId (Products db) with
          | None => throw productNotFound
          | Some _ =>
              let push c := Category.with_products (Category.products c ++ [productId]) c in
              let '(_, cs) := findByIdAndUpdate categoryId push (Categories db) in
              await put (with_Categories cs db) in
              ret category
          end
      end
  | None => throw forbiddenException
  end.

(** ** Review resolvers *)

(** The resolvers scan a list with [for (const item of ...)] and leave the
    loop at the first element satisfying a test: [List.find] is that
    element, and [assign_first] is the list once the body has assigned to
    it through [f]. *)
Fixpoint assign_first {A} (P : A -> bool) (f : A -> A) (l : list A) : list A :=
  match l with
  | [] => []
  | item :: l' => if P item then f item :: l' else item :: assign_first P f l'
  end.

Definition authored_by (username : string) (item : Review.t) : bool :=
  bool_decide (Review.username item = username).

(** The resolver answers with the product as it was loaded, before the
    [$push]; the pushed subdocument gets its [dateCreated] on creation. *)
Definition addReview (now : Z) (productId review : string) (rating : Z)
    (context : IUserContext) : Async DB Product.t :=
  match user context with
  | Some cu =>
      let* db := await get in
      match findById productId (Products db) with
      | None => throw productNotFound
      | Some product =>
          match List.find (authored_by (auth_username cu)) (Product.reviews product) with
          | Some _ => throw alreadyReviewed
          | None =>
              let item := Review.mk (auth_username cu) review rating now in
              let push p := Product.with_reviews (Product.reviews p ++ [item]) p in
              let '(_, ps) := findByIdAndUpdate productId push (Products db) in
              await put (with_Products ps db) in
              ret product
          end
      end
  | None => throw forbiddenException
  end.

Definition editReview (productId review : string) (rating : Z)
    (context : IUserContext) : Async DB Product.t :=
  match user context with
  | Some cu =>
      let* db := await get in
      match findById productId (Products db) with
      | None => throw productNotFound
      | Some product =>
          let assign item :=
            Review.mk (Review.username item) review rating (Review.dateCreated item) in
          match List.find (authored_by (auth_username cu)) (Product.reviews product) with
          | Some _ =>
              let reviews :=
                assign_first (authored_by (auth_username cu)) assign
                  (Product.reviews product) in
              let product := Product.with_reviews reviews product in
              await put (with_Products (save product (Products db)) db) in
              ret product
          | None => throw forbiddenException
          end
      end
  | None => throw forbiddenException
  end.

(** ** Basket resolvers *)

Definition line_of (productId : string) (item : BasketItem.t) : bool :=
  bool_decide (BasketItem.product item = productId).

(** [{ $pull: { basket: { product: productId } } }] *)
Definition pull (productId : string) (u : User.t) : User.t :=
  User.with_basket
    (filter (fun item => BasketItem.product item <> productId) (User.basket u)) u.

Definition addBasketItem (now : Z) (productId : string) (quantity : Z)
    (context : IUserContext) : Async DB (option User.t) :=
  match user context with
  | Some cu =>
      let* db := await get in
      match findById productId (Products db) with
      | None => throw productNotFound
      | Some _ =>
          match findById (auth_id cu) (Users db) with
          | Some user =>
              let add item :=
                BasketItem.mk (BasketItem.product item)
                  (BasketItem.quantity item + quantity) (BasketItem.dateAdded item) in
              match List.find (line_of productId) (User.basket user) with
              | Some _ =>
                  let basket := assign_first (line_of productId) add (User.basket user) in
                  let user := User.with_basket basket user in
                  await put (with_Users (save user (Users db)) db) in
                  ret (Some user)
              | None =>
                  let basketItem := BasketItem.mk productId quantity now in
                  let push u := User.with_basket (User.basket u ++ [basketItem]) u in
                  let '(updated, us) := findByIdAndUpdate (auth_id cu) push (Users db) in
                  await put (with_Users us db) in
                  ret updated
              end
          | None => throw forbiddenException
          end
      end
  | None => throw forbiddenException
  end.

Definition removeBasketItem (productId : string) (context : IUserContext)
    : Async DB (option User.t) :=
  match user context with
  | Some cu =>
      let* db := await get in
      match findById productId (Products db) with
      | None => throw productNotFound
      | Some _ =>
          match findById (auth_id cu) (Users db) with
          | Some user =>
              match List.find (line_of productId) (User.basket user) with
              | Some _ =>
                  let '(updated, us) :=
                    findByIdAndUpdate (auth_id cu) (pull productId) (Users db) in
                  await put (with_Users us db) in
                  ret updated
              | None => throw forbiddenException
              end
          | None => throw forbiddenException
          end
      end
  | None => throw forbiddenException
  end.

Definition decrementBasketItem (productId : string) (context : IUserContext)
    : Async DB (option User.t) :=
  match user context with
  | Some cu =>
      let* db := await get in
      match findById productId (Products db) with
      | None => throw productNotFound
      | Some _ =>
          match findById (auth_id cu) (Users db) with
          | Some user =>
              match List.find (line_of productId) (User.basket user) with
              | Some item =>
                  if 1 <? BasketItem.quantity item then
                    let decr item :=
                      BasketItem.mk (BasketItem.product item)
                        (BasketItem.quantity item - 1) (BasketItem.dateAdded item) in
                    let basket := assign_first (line_of productId) decr (User.basket user) in
                    let user := User.with_basket basket user in
                    await put (with_Users (save user (Users db)) db) in
                    ret (Some user)
                  else
                    let '(updated, us) :=
                      findByIdAndUpdate (auth_id cu) (pull productId) (Users db) in
                    await put (with_Users us db) in
                    ret updated
              | None => throw forbiddenException
              end
          | None => throw forbiddenException
          end
      end
  | None => throw forbiddenException
  end.

Definition clearBasket (context : IUserContext) : Async DB (option User.t) :=
  match user context with
  | Some cu =>
      let* db := await get in
      let '(updated, us) :=
        findByIdAndUpdate (auth_id cu) (User.with_basket []) (Users db) in
      await put (with_Users us db) in
      ret updated
  | None => throw forbiddenException
  end.

(** ** The payment collaborator *)

(** The Stripe account as the resolvers see it: every request sent is
    logged with Stripe's verdict, an accepted request creates an object
    whose identifier is its position in the log, and [answers] scripts the
    verdicts of the requests to come (accepted once the script is over). *)
Module Stripe.
Definition id := nat.

Record ProductCreateParams := mkProduct {
  name : string;
  description : string;
  images : list string
}.

Record PriceCreateParams := mkPrice {
  product : id;
  unit_amount : float;
  currency : string
}.

Record LineItem := mkLineItem {
  price : id;
  quantity : option Z
}.

Record SessionCreateParams := mkSession {
  payment_method_types : list string;
  line_items : list LineItem;
  mode : string;
  success_url : string;
  cancel_url : string
}.

Inductive Request :=
| ProductsCreate (params : ProductCreateParams)
| PricesCreate (params : PriceCreateParams)
| SessionsCreate (params : SessionCreateParams).

Record t := mk {
  requests : list (Request * bool);
  answers : list bool
}.

Definition rejected : Exception := StripeError "The request was not accepted.".

Definition send (r : Request) : Async t id :=
  fun account =>
    let accepted := hd true (answers account) in
    let account' := mk (requests account ++ [(r, accepted)]) (tl (answers account)) in
    if accepted then (Returned (length (requests account)), account')
    else (Thrown rejected, account').

Definition products_create (params : ProductCreateParams) : Async t id :=
  send (ProductsCreate params).
Definition prices_create (params : PriceCreateParams) : Async t id :=
  send (PricesCreate params).
Definition checkout_sessions_create (params : SessionCreateParams) : Async t id :=
  send (SessionsCreate params).

(** The hosted page of a session. *)
Definition session_url (session : id) : string :=
  "https://checkout.stripe.com/c/pay/" +:+ pretty session.

(** What the account holds under an identifier. *)
Definition retrieve (account : t) (i : id) : option Request :=
  match requests account !! i with
  | Some (r, true) => Some r
  | _ => None
  end.

Definition retrieve_price (account : t) (i : id) : option PriceCreateParams :=
  match retrieve account i with
  | Some (PricesCreate params) => Some params
  | _ => None
  end.
End Stripe.

Record World := mkWorld {
  db : DB;
  stripe : Stripe.t
}.

Definition onDB {A} (m : Async DB A) : Async World A :=
  fun w => let '(o, d) := m (db w) in (o, mkWorld d (stripe w)).

Definition onStripe {A} (m : Async Stripe.t A) : Async World A :=
  fun w => let '(o, a) := m (stripe w) in (o, mkWorld (db w) a).

(** ** JavaScript numbers *)

(** [Math.round]: the nearest integer, ties towards +∞; NaN, the
    infinities and the zeros are returned as they are. *)
Definition Math_round (x : float) : float :=
  match Prim2SF x with
  | S754_finite s m e =>
      if 0 <=? e then x
      else
        let k := - e in
        let n := (2 * (if s then Z.neg m else Z.pos m) + 2 ^ k) / 2 ^ (k + 1) in
        let a := PrimFloat.of_uint63 (Uint63.of_Z (Z.abs n)) in
        if n <? 0 then PrimFloat.opp a
        else if (n =? 0) && s then PrimFloat.opp a
        else a
  | _ => x
  end.

(** A number in a condition: false for the zeros and NaN. *)
Definition truthy (x : float) : bool :=
  negb (PrimFloat.is_zero x || PrimFloat.is_nan x).

Definition hundred : float := PrimFloat.of_uint63 100%uint63.

(** ** Checkout *)

Record CheckoutSession := mkCheckoutSession {
  sessionId : Stripe.id;
  url : string
}.

(** [productQuantities[productId] = (productQuantities[productId] || 0) + 1],
    for a [productId] that names no property of [Object.prototype] (see
    [plain_key] below): the object literal inherits those, and the map has
    none of them. *)
Definition count (productQuantities : gmap string Z) (productId : string)
  : gmap string Z :=
  <[productId := default 0 (productQuantities !! productId) + 1]> productQuantities.

Definition Object_keys (productQuantities : gmap string Z) : list string :=
  (map_to_list productQuantities).*1.

(** [Product.find({ _id: { $in: productIds } })] *)
Definition Product_find_in (productIds : list string) (c : list Product.t)
  : list Product.t :=
  filter (fun p => Product._id p ∈ productIds) c.

Definition finalPrice (product : Product.t) : float :=
  match Product.salePrice product with
  | Some salePrice =>
      if Product.onSale product && truthy salePrice then salePrice
      else Product.price product
  | None => Product.price product
  end.

(** The body of [for (let i = 0; i < products.length; i++)]. *)
Fixpoint line_items_loop (products : list Product.t)
    (productQuantities : gmap string Z) (line_items : list Stripe.LineItem)
  : Async Stripe.t (list Stripe.LineItem) :=
  match products with
  | [] => ret line_items
  | product :: products' =>
      let quantity := productQuantities !! Product._id product in
      let* stripeProduct := await
        Stripe.products_create
          (Stripe.mkProduct (Product.name product) (Product.description product)
             [Product.imageUrl product]) in
      let* price := await
        Stripe.prices_create
          (Stripe.mkPrice stripeProduct
             (Math_round (PrimFloat.mul (finalPrice product) hundred)) "usd") in
      line_items_loop products' productQuantities
        (line_items ++ [Stripe.mkLineItem price quantity])
  end.

(** A template literal prints [undefined] by its name. *)
Definition template (url : option string) : string := default "undefined" url.

Definition session_params (url : option string) (line_items : list Stripe.LineItem)
  : Stripe.SessionCreateParams :=
  Stripe.mkSession ["card"] line_items "payment"
    (template url +:+ "/success?session_id={CHECKOUT_SESSION_ID}")
    (template url +:+ "/cart").

Section Checkout.
(** [new URL(s).origin]; [None] when the constructor throws. *)
Variable URL_origin : string -> option string.

Definition invalidURL : Exception := TypeError "Invalid URL".

(** [if (context.headers) url = new URL(context.headers.referer || "").origin] *)
Definition origin (context : IUserContext) : Outcome (option string) :=
  match headers context with
  | Some h =>
      match URL_origin (default "" (referer h)) with
      | Some o => Returned (Some o)
      | None => Thrown invalidURL
      end
  | None => Returned None
  end.

(** [user.orders.push(order); await user.save()], when the user is found. *)
Definition record_order (cu : AuthUser) (order : Order.t) : Async DB unit :=
  let* db := await get in
  match findById (auth_id cu) (Users db) with
  | Some user =>
      let user := User.with_orders (User.orders user ++ [order]) user in
      put (with_Users (save user (Users db)) db)
  | None => ret tt
  end.

(** Everything after the order is saved. *)
Definition payment_session (url : option string) (order : Order.t)
  : Async World CheckoutSession :=
  let productQuantities := fold_left count (Order.products order) ∅ in
  let productIds := Object_keys productQuantities in
  let* store := await onDB get in
  let products := Product_find_in productIds (Products store) in
  let* line_items := await onStripe (line_items_loop products productQuantities []) in
  let* session := await onStripe
    (Stripe.checkout_sessions_create (session_params url line_items)) in
  ret (mkCheckoutSession session (Stripe.session_url session)).

Definition checkout (now : Z) (products : list string) (context : IUserContext)
  : Async World CheckoutSession :=
  let* url := await settle (origin context) in
  match user context with
  | None => throw notAuthenticated
  | Some cu =>
      let order := Order.mk products now in
      await onDB (record_order cu order) in
      payment_session url order
  end.
End Checkout.

(** ** What a checkout sends when Stripe accepts *)

(** Stripe accepts the next [n] requests. *)
Definition accepting (n : nat) (answers : list bool) : Prop :=
  Forall (eq true) (take n answers).

(** The amount sent for a product. *)
Definition unit_amount_of (product : Product.t) : float :=
  Math_round (PrimFloat.mul (finalPrice product) hundred).

(** The requests of the loop over [products] and the line items it
    collects, [next] being the identifier of the next Stripe object. *)
Fixpoint requests_for (next : nat) (products : list Product.t)
  : list (Stripe.Request * bool) :=
  match products with
  | [] => []
  | product :: products' =>
      (Stripe.ProductsCreate
         (Stripe.mkProduct (Product.name product) (Product.description product)
            [Product.imageUrl product]), true)
      :: (Stripe.PricesCreate (Stripe.mkPrice next (unit_amount_of product) "usd"), true)
      :: requests_for (S (S next)) products'
  end.

Fixpoint line_items_for (next : nat) (products : list Product.t)
    (productQuantities : gmap string Z) : list Stripe.LineItem :=
  match products with
  | [] => []
  | product :: products' =>
      Stripe.mkLineItem (S next) (productQuantities !! Product._id product)
      :: line_items_for (S (S next)) products' productQuantities
  end.

(** The price of a line item is the sale price, in cents, of a product on
    sale with a sale price that counts as true, and its list price, in
    cents, otherwise. *)
Definition sale_aware (p : Product.t) (amount : float) : Prop :=
  (Product.onSale p = true ->
     forall sp, Product.salePrice p = Some sp -> truthy sp = true ->
     amount = Math_round (PrimFloat.mul sp hundred)) /\
  (Product.onSale p = true ->
     (forall sp, Product.salePrice p = Some sp -> truthy sp = false) ->
     amount = Math_round (PrimFloat.mul (Product.price p) hundred)) /\
  (Product.onSale p = false ->
     amount = Math_round (PrimFloat.mul (Product.price p) hundred)).

Definition priced (account : Stripe.t) (item : Stripe.LineItem) (p : Product.t) : Prop :=
  exists params,
    Stripe.retrieve_price account (Stripe.price item) = Some params /\
    sale_aware p (Stripe.unit_amount params).

(** The store once the order is recorded. *)
Definition recorded (cu : AuthUser) (order : Order.t) (store : DB) : DB :=
  match findById (auth_id cu) (Users store) with
  | Some user =>
      with_Users
        (save (User.with_orders (User.orders user ++ [order]) user) (Users store)) store
  | None => store
  end.

(** ** Sequences of calls *)

Inductive StockCall :=
| AddStock (productId : string) (quantity : Z) (context : IUserContext)
| RemoveStock (productId : string) (quantity : Z) (context : IUserContext).

(** The store a call leaves behind, whether it returned or threw. *)
Definition stock_call (store : DB) (call : StockCall) : DB :=
  match call with
  | AddStock productId quantity context => (addStock productId quantity context store).2
  | RemoveStock productId quantity context => (removeStock productId quantity context store).2
  end.

Definition stock_calls (calls : list StockCall) (store : DB) : DB :=
  fold_left stock_call calls store.

Definition stock_nonneg (store : DB) : Prop :=
  Forall (fun p => 0 <= Product.stock p) (Products store).

Definition adds_nonneg (call : StockCall) : Prop :=
  match call with
  | AddStock _ quantity _ => 0 <= quantity
  | RemoveStock _ _ _ => True
  end.




Definition lines_of (productId : string) (u : User.t) : list BasketItem.t :=
  filter (fun item => BasketItem.product item = productId) (User.basket u).


(** ** A small shop for the examples *)

Definition alice : AuthUser := mkAuthUser "u1" "alice" "alice@example.com".

Definition browser : Headers := mkHeaders (Some "http://localhost:3000/cart").

Definition as_alice : IUserContext := mkContext (Some alice) (Some browser).
Definition anonymous : IUserContext := mkContext None None.
(** A request that carries headers but no [Referer]. *)
Definition anonymous_script : IUserContext := mkContext None (Some (mkHeaders None)).

Definition mug : Product.t :=
  Product.mk "p1" "Mug" "A mug." "mug.png" 12.5%float 0 [] true (Some 10%float).
Definition pen : Product.t :=
  Product.mk "p2" "Pen" "A pen." "pen.png" 2.25%float 7 [] false None.
(** On sale at a sale price of zero. *)
Definition flyer : Product.t :=
  Product.mk "p3" "Flyer" "A flyer." "flyer.png" 1.5%float 3 [] true (Some 0%float).

Definition alice_doc : User.t := User.mk "u1" "alice" "alice@example.com" [] [].

Definition shop : DB := mkDB [mug; pen; flyer] [alice_doc] [].

(** The URL constructor on the strings of the examples: an [http] or
    [https] URL has the origin [scheme://host:port], and a string without a
    scheme, the empty one among them, is refused. *)
Fixpoint upto_slash (s : string) : string :=
  match s with
  | EmptyString => EmptyString
  | String c s' => if Ascii.eqb c (Ascii.ascii_of_nat 47) then EmptyString else String c (upto_slash s')
  end.

Definition http_origin (s : string) : option string :=
  if String.prefix "http://" s
  then Some ("http://" +:+ upto_slash (String.substring 7 (String.length s - 7) s))
  else if String.prefix "https://" s
  then Some ("https://" +:+ upto_slash (String.substring 8 (String.length s - 8) s))
  else None.

Definition account (answers : list bool) : Stripe.t := Stripe.mk [] answers.

(** A catalog where p1 is on sale at a sale price of zero. *)
Definition free_mug : Product.t :=
  Product.mk "p1" "Mug" "A mug." "mug.png" 12.5%float 4 [] true (Some 0%float).

Definition clearance : DB := mkDB [free_mug; pen] [alice_doc] [].



(** A shop where alice has a mug and three pens in her basket and one
    order behind her, and bob a pen. *)
Definition shopper : User.t :=
  User.mk "u1" "alice" "alice@example.com"
    [BasketItem.mk "p1" 1 5; BasketItem.mk "p2" 3 6] [Order.mk ["p3"] 2].

Definition bob : AuthUser := mkAuthUser "u2" "bob" "bob@example.com".
Definition as_bob : IUserContext := mkContext (Some bob) (Some browser).
Definition bob_doc : User.t :=
  User.mk "u2" "bob" "bob@example.com" [BasketItem.mk "p2" 1 7] [].

Definition busy_shop : DB := mkDB [mug; pen; flyer] [shopper; bob_doc] [].

(** Carol holds a token and has no record. *)
Definition carol : AuthUser := mkAuthUser "u3" "carol" "carol@example.com".
Definition as_carol : IUserContext := mkContext (Some carol) (Some browser).



(** ** Where the embedding is exact *)

(** [Number.isSafeInteger]: the integers on which [+] and [-] of numbers,
    which are binary64, give the integer of the arithmetic of [Z]. Beyond
    them [product.stock += quantity] and [product.stock -= quantity] round,
    and [addStock] and [removeStock] above no longer tell the stock saved. *)
Definition safe_integer (n : Z) : Prop := - (2 ^ 53 - 1) <= n <= 2 ^ 53 - 1.

(** The names a plain object inherits from [Object.prototype]. For one of
    them [productQuantities[productId]] is not [undefined] before the first
    assignment, and [count] above does not tell what the loop stores. *)
Definition Object_prototype_names : list string :=
  ["constructor"; "hasOwnProperty"; "isPrototypeOf"; "propertyIsEnumerable";
   "toLocaleString"; "toString"; "valueOf"; "__proto__"; "__defineGetter__";
   "__defineSetter__"; "__lookupGetter__"; "__lookupSetter__"].

Definition plain_key (id : string) : Prop := id ∉ Object_prototype_names.

(** Alice through a request that carries headers and no [Referer]. *)
Definition as_alice_script : IUserContext :=
  mkContext (Some alice) (Some (mkHeaders None)).

(** ** Requests to the mutations *)

(** A call of one of the resolvers of [Mutation] embedded above. *)
Module Call.
Inductive t :=
| addProduct (oid : string) (productData : IProductInput)
| removeProduct (productId : string)
| addStock (productId : string) (quantity : Z)
| removeStock (productId : string) (quantity : Z)
| addCategory (oid : string) (categoryData : ICategoryInput)
| removeCategory (categoryId : string)
| addProductToCategory (productId categoryId : string)
| addReview (now : Z) (productId review : string) (rating : Z)
| editReview (productId review : string) (rating : Z)
| addBasketItem (now : Z) (productId : string) (quantity : Z)
| removeBasketItem (productId : string)
| decrementBasketItem (productId : string)
| clearBasket.
End Call.

(** The store a request leaves behind, whether its resolver returned or
    threw. *)
Definition mutate (store : DB) (request : IUserContext * Call.t) : DB :=
  let '(context, call) := request in
  match call with
  | Call.addProduct oid productData => (addProduct oid productData context store).2
  | Call.removeProduct productId => (removeProduct productId context store).2
  | Call.addStock productId quantity => (addStock productId quantity context store).2
  | Call.removeStock productId quantity => (removeStock productId quantity context store).2
  | Call.addCategory oid categoryData => (addCategory oid categoryData context store).2
  | Call.removeCategory categoryId => (removeCategory categoryId context store).2
  | Call.addProductToCategory productId categoryId =>
      (addProductToCategory productId categoryId context store).2
  | Call.addReview now productId review rating =>
      (addReview now productId review rating context store).2
  | Call.editReview productId review rating =>
      (editReview productId review rating context store).2
  | Call.addBasketItem now productId quantity =>
      (addBasketItem now productId quantity context store).2
  | Call.removeBasketItem productId => (removeBasketItem productId context store).2
  | Call.decrementBasketItem productId => (decrementBasketItem productId context store).2
  | Call.clearBasket => (clearBasket context store).2
  end.

Definition mutations (requests : list (IUserContext * Call.t)) (store : DB) : DB :=
  fold_left mutate requests store.

(** Every collection has one document per identifier. *)
Definition unique_ids (store : DB) : Prop :=
  NoDup (Product._id <$> Products store) /\
  NoDup (User._id <$> Users store) /\
  NoDup (Category._id <$> Categories store).

(** No product has two reviews under one username. *)
Definition one_review_per_user (store : DB) : Prop :=
  Forall (fun p => NoDup (Review.username <$> Product.reviews p)) (Products store).

(** A basket with at most one line per product, and in every line a
    quantity of one or more. *)
Definition well_formed (basket : list BasketItem.t) : Prop :=
  NoDup (BasketItem.product <$> basket) /\
  Forall (fun item => 1 <= BasketItem.quantity item) basket.

Definition baskets_well_formed (store : DB) : Prop :=
  Forall (fun u => well_formed (User.basket u)) (Users store).

(** The quantity of an [addBasketItem] request is one or more. *)
Definition adds_positive (request : IUserContext * Call.t) : Prop :=
  match request.2 with
  | Call.addBasketItem _ _ quantity => 1 <= quantity
  | _ => True
  end.

(** What of a user is not the basket. *)
Definition account_of (u : User.t) : string * string * string * list Order.t :=
  (User._id u, User.username u, User.email u, User.orders u).

(** How many times an identifier occurs in a list. *)
Definition occurrences (productId : string) (products : list string) : Z :=
  Z.of_nat (length (filter (fun x => x = productId) products)).

(** ** Queries *)

(** [try { ... } catch (error) { ... }] *)
Definition try_catch {S A} (m : Async S A) (handler : Exception -> Async S A)
  : Async S A :=
  fun s =>
    match m s with
    | (Returned a, s') => (Returned a, s')
    | (Thrown error, s') => handler error s'
    end.

(** A basket line once [populate("basket.product")] has replaced the
    reference by the product, or by [null] when the catalog has none. *)
Record PopulatedItem := mkPopulatedItem {
  populated_product : option Product.t;
  populated_quantity : Z;
  populated_dateAdded : Z
}.

Definition populate_item (catalog : list Product.t) (item : BasketItem.t)
  : PopulatedItem :=
  mkPopulatedItem (findById (BasketItem.product item) catalog)
    (BasketItem.quantity item) (BasketItem.dateAdded item).

(** [Query.me]: the user of the context, with the basket populated;
    [null] when the user has no record. *)
Definition me (context : IUserContext)
  : Async DB (option (User.t * list PopulatedItem)) :=
  match user context with
  | Some cu =>
      let* store := await get in
      match findById (auth_id cu) (Users store) with
      | Some u => ret (Some (u, populate_item (Products store) <$> User.basket u))
      | None => ret None
      end
  | None => throw forbiddenException
  end.

(** The documents of the model [CategoryName], with the fields the
    resolvers name. *)
Module CategoryName.
Record t := mk {
  _id : string;
  name : string;
  products : list string
}.
End CategoryName.

(** [populate("products")] of an array of references: the products found,
    in the order of the references. *)
Definition populate_products (catalog : list Product.t) (references : list string)
  : list Product.t :=
  omap (fun reference => findById reference catalog) references.

Definition fetchingCategoryByName : Exception :=
  GraphQLError "Error fetching category by name." None.

(** [Query.categoryByName], over the collection of [CategoryName] and the
    catalog; what [console.error] prints is left out. *)
Definition categoryByName (categoryName : string)
  : Async (list CategoryName.t * list Product.t) (CategoryName.t * list Product.t) :=
  try_catch
    (let* s := await get in
     match List.find (fun c => bool_decide (CategoryName.name c = categoryName)) s.1 with
     | None => throw categoryNotFound
     | Some category =>
         ret (category, populate_products s.2 (CategoryName.products category))
     end)
    (fun error => throw fetchingCategoryByName).

(** ** Login *)

Definition incorrectCredentials : Exception :=
  GraphQLError "Incorrect credentials. Please try again." (Some "FORBIDDEN").

Section Login.
(** [user.isCorrectPassword(password)] and [signToken(username, email, _id)],
    of the model and of [utils/auth.js]. *)
Variable isCorrectPassword : User.t -> string -> bool.
Variable signToken : string -> string -> string -> string.

Definition login (email password : string) : Async DB (string * User.t) :=
  let* store := await get in
  match List.find (fun u => bool_decide (User.email u = email)) (Users store) with
  | Some u =>
      if isCorrectPassword u password
      then ret (signToken (User.username u) (User.email u) (User._id u), u)
      else throw incorrectCredentials
  | None => throw incorrectCredentials
  end.
End Login.

(** * Properties *)

(** ** The model interface *)

Ltac step_async := unfold bind, get, put, ret, throw; cbn [fst snd].

Section ModelFacts.
Context {D : Type} `{Document D}.
Implicit Types (d : D) (c : list D) (id : string).

Lemma findById_Some id c d :
  findById id c = Some d -> d ∈ c /\ doc_id d = id.
Proof.
  induction c as [|x c IH]; cbn; [discriminate|].
  case_bool_decide as Hx.
  - intros [= <-]. split; [left | exact Hx].
  - intros Hd. destruct (IH Hd) as [Hin Hid]. split; [by right | exact Hid].
Qed.

Lemma findById_None id c :
  findById id c = None <-> forall d, d ∈ c -> doc_id d <> id.
Proof.
  induction c as [|x c IH]; cbn.
  - split; [intros _ d Hd; inversion Hd | reflexivity].
  - case_bool_decide as Hx.
    + split; [discriminate|]. intros Hall. destruct (Hall x); [left | exact Hx].
    + rewrite IH. split.
      * intros Hall d Hd. inversion Hd; subst; [exact Hx | by apply Hall].
      * intros Hall d Hd. apply Hall. by right.
Qed.

Lemma findById_save id d c :
  doc_id d = id -> is_Some (findById id c) -> findById id (save d c) = Some d.
Proof.
  intros Hd. induction c as [|x c IH]; cbn.
  - intros [? [=]].
  - rewrite Hd. case_bool_decide as Hx; cbn.
    + intros _. by rewrite bool_decide_true.
    + intros Hc. rewrite bool_decide_false by exact Hx. by apply IH.
Qed.

Lemma findById_save_ne id d c :
  doc_id d <> id -> findById id (save d c) = findById id c.
Proof.
  intros Hd. induction c as [|x c IH]; cbn; [reflexivity|].
  case_bool_decide as Hx; cbn.
  - rewrite bool_decide_false by exact Hd.
    rewrite bool_decide_false by congruence. reflexivity.
  - by rewrite IH.
Qed.

Lemma Forall_save (P : D -> Prop) d c :
  P d -> Forall P c -> Forall P (save d c).
Proof.
  intros Hd. induction 1 as [|x c Hx Hc IH]; cbn; [constructor|].
  case_bool_decide; constructor; assumption.
Qed.

Lemma length_save d c : length (save d c) = length c.
Proof.
  induction c as [|x c IH]; cbn; [reflexivity|].
  case_bool_decide; cbn; congruence.
Qed.
End ModelFacts.

(** ** Stock *)

Lemma addStock_store productId quantity context store :
  (addStock productId quantity context store).2 = store \/
  exists p, findById productId (Products store) = Some p /\
    (addStock productId quantity context store).2 =
      with_Products
        (save (Product.with_stock (Product.stock p + quantity) p) (Products store)) store.
Proof.
  unfold addStock. destruct (user context); [|by left].
  step_async. destruct (findById productId (Products store)) as [p|] eqn:Hp; [|by left].
  right. by exists p.
Qed.

Lemma removeStock_store productId quantity context store :
  (removeStock productId quantity context store).2 = store \/
  exists p, findById productId (Products store) = Some p /\
    quantity <= Product.stock p /\
    (removeStock productId quantity context store).2 =
      with_Products
        (save (Product.with_stock (Product.stock p - quantity) p) (Products store)) store.
Proof.
  unfold removeStock. destruct (user context); [|by left].
  step_async. destruct (findById productId (Products store)) as [p|] eqn:Hp; [|by left].
  destruct (quantity <=? Product.stock p) eqn:Hq; [|by left].
  right. exists p. repeat split. by apply Z.leb_le.
Qed.

Lemma stock_call_nonneg store call :
  adds_nonneg call -> stock_nonneg store -> stock_nonneg (stock_call store call).
Proof.
  unfold stock_nonneg. intros Hcall Hstore.
  destruct call as [productId quantity context | productId quantity context]; cbn in *.
  - destruct (addStock_store productId quantity context store) as [-> | (p & Hp & ->)];
      [assumption|].
    cbn. apply Forall_save; [|assumption].
    apply findById_Some in Hp as [Hin _].
    rewrite Forall_forall in Hstore. specialize (Hstore p Hin). cbn. lia.
  - destruct (removeStock_store productId quantity context store)
      as [-> | (p & Hp & Hq & ->)]; [assumption|].
    cbn. apply Forall_save; [|assumption]. cbn. lia.
Qed.

(** C1, as amended: on a store where no product has a negative stock, no
    sequence of [addStock] and [removeStock] calls whose [addStock]
    quantities are not negative makes a stock negative; the quantities of
    [removeStock], the products named and the callers are arbitrary. *)
Theorem stock_never_negative (calls : list StockCall) (store : DB) :
  Forall adds_nonneg calls ->
  stock_nonneg store ->
  stock_nonneg (stock_calls calls store).
Proof.
  unfold stock_calls. intros Hcalls. revert store.
  induction Hcalls as [|call calls Hcall _ IH]; intros store Hstore; cbn.
  - assumption.
  - apply IH. by apply stock_call_nonneg.
Qed.

(** Four calls on the shop of the examples, one of them refused. *)
Lemma stock_never_negative_witness :
  stock_nonneg
    (stock_calls [AddStock "p1" 4 as_alice; RemoveStock "p1" 9 as_alice;
                  RemoveStock "p2" (-3) as_alice; RemoveStock "p1" 4 as_alice] shop).
Proof.
  apply stock_never_negative.
  - repeat constructor; cbn; lia.
  - repeat constructor; cbn; lia.
Defined.

(** C1, as stated, fails: [addStock] takes any [Int], and a negative
    quantity on a product whose stock is 0 leaves a negative stock. *)
Lemma stock_negative_after_addStock :
  stock_nonneg shop /\
  Product.stock <$> findById "p1" (Products (stock_calls [AddStock "p1" (-1) as_alice] shop))
    = Some (-1) /\
  ~ stock_nonneg (stock_calls [AddStock "p1" (-1) as_alice] shop).
Proof.
  split; [repeat constructor; cbn; lia|]. split; [reflexivity|].
  intros Hneg. apply Forall_cons in Hneg as [Hmug _]. cbn in Hmug. lia.
Qed.

(** C2: for an authenticated caller and an existing product, stock and
    quantity being safe integers, [removeStock] with a quantity above the
    stock throws the insufficient-stock error, of code BAD_REQUEST, and
    leaves the whole store, the stock with it, as it was; with a quantity up
    to the stock it returns and saves the product with a stock that is the
    former stock less the quantity, the other fields of the product, the
    other products, the users and the categories being as they were. *)
Theorem removeStock_checks_stock (productId : string) (quantity : Z)
    (context : IUserContext) (cu : AuthUser) (store : DB) (p : Product.t) :
  user context = Some cu ->
  findById productId (Products store) = Some p ->
  safe_integer (Product.stock p) ->
  safe_integer quantity ->
  (Product.stock p < quantity ->
     removeStock productId quantity context store = (Thrown insufficientStock, store) /\
     Product.stock <$> findById productId (Products store) = Some (Product.stock p) /\
     error_code insufficientStock = Some "BAD_REQUEST") /\
  (quantity <= Product.stock p ->
     safe_integer (Product.stock p - quantity) ->
     exists p' store',
       removeStock productId quantity context store = (Returned p', store') /\
       findById productId (Products store') = Some p' /\
       Product.stock p' = Product.stock p - quantity /\
       Product._id p' = Product._id p /\
       Product.name p' = Product.name p /\
       Product.description p' = Product.description p /\
       Product.imageUrl p' = Product.imageUrl p /\
       Product.price p' = Product.price p /\
       Product.reviews p' = Product.reviews p /\
       Product.onSale p' = Product.onSale p /\
       Product.salePrice p' = Product.salePrice p /\
       (forall other, other <> productId ->
          findById other (Products store') = findById other (Products store)) /\
       Users store' = Users store /\ Categories store' = Categories store).
Proof.
  intros Hcu Hp _ _. unfold removeStock. rewrite Hcu. step_async. rewrite Hp.
  split.
  - intros Hq. apply Z.leb_gt in Hq. by rewrite Hq.
  - intros Hq _. apply Z.leb_le in Hq. rewrite Hq. do 2 eexists.
    split; [reflexivity|].
    apply findById_Some in Hp as Hid. destruct Hid as [_ Hid].
    cbn [Products with_Products Users Categories].
    split; [apply findById_save; [exact Hid | by rewrite Hp]|].
    do 9 (split; [reflexivity|]).
    split; [|split; reflexivity].
    intros other Hother. apply findById_save_ne.
    change (doc_id (Product.with_stock (Product.stock p - quantity) p))
      with (doc_id p).
    congruence.
Qed.

(** Eight pens cannot be taken off a stock of seven; five can, and two
    are left. *)
Lemma removeStock_checks_stock_witness :
  (removeStock "p2" 8 as_alice shop = (Thrown insufficientStock, shop) /\
   Product.stock <$> findById "p2" (Products shop) = Some 7) /\
  exists p' store',
    removeStock "p2" 5 as_alice shop = (Returned p', store') /\
    findById "p2" (Products store') = Some p' /\
    Product.stock p' = 2.
Proof.
  assert (safe_integer 7 /\ safe_integer 8 /\ safe_integer 5 /\ safe_integer (7 - 5))
    as (H7 & H8 & H5 & H2) by (unfold safe_integer; lia).
  split.
  - destruct (removeStock_checks_stock "p2" 8 as_alice alice shop pen
                eq_refl eq_refl H7 H8) as [Hfail _].
    destruct Hfail as (Hcall & Hstock & _); [cbn; lia|]. by split.
  - destruct (removeStock_checks_stock "p2" 5 as_alice alice shop pen
                eq_refl eq_refl H7 H5) as [_ Hok].
    destruct Hok as (p' & store' & Hcall & Hfound & Hstock & _); [cbn; lia | exact H2|].
    exists p', store'. by repeat split.
Defined.

(** ** Loops that stop at the first match *)

Section FirstMatch.
Context {A : Type} (P : A -> bool).

Lemma find_split (l : list A) (x : A) :
  List.find P l = Some x ->
  exists l1 l2, l = l1 ++ x :: l2 /\ P x = true /\ List.find P l1 = None.
Proof.
  induction l as [|y l IH]; cbn; [discriminate|].
  destruct (P y) eqn:Hy.
  - intros [= <-]. by exists [], l.
  - intros Hx. destruct (IH Hx) as (l1 & l2 & -> & HPx & Hl1).
    exists (y :: l1), l2. cbn. by rewrite Hy.
Qed.

Lemma find_app_None (l1 l2 : list A) :
  List.find P l1 = None -> List.find P (l1 ++ l2) = List.find P l2.
Proof.
  induction l1 as [|y l1 IH]; cbn; [reflexivity|].
  destruct (P y); [discriminate | exact IH].
Qed.

Lemma assign_first_split (f : A -> A) (l1 l2 : list A) (x : A) :
  List.find P l1 = None -> P x = true ->
  assign_first P f (l1 ++ x :: l2) = l1 ++ f x :: l2.
Proof.
  intros Hl1 Hx. induction l1 as [|y l1 IH]; cbn in *.
  - by rewrite Hx.
  - destruct (P y); [discriminate|]. by rewrite IH.
Qed.

End FirstMatch.

Lemma find_line_None productId (basket : list BasketItem.t) :
  List.find (line_of productId) basket = None <->
  productId ∉ BasketItem.product <$> basket.
Proof.
  induction basket as [|item basket IH]; cbn.
  - split; [intros _ Hin; inversion Hin | reflexivity].
  - unfold line_of at 1. case_bool_decide as Hitem.
    + split; [discriminate|]. intros Hnot. destruct Hnot. rewrite Hitem. left.
    + rewrite IH, not_elem_of_cons. split; [intros Hnot; split; congruence | by intros [_ Hnot]].
Qed.

(** ** Reviews *)

(** C8: for an authenticated user without a review on an existing product,
    [addReview] appends exactly one review, under the user's name, to the
    product's reviews; a second [addReview] under the same username on the
    same product then throws the already-reviewed error, whose code is
    FORBIDDEN, and leaves the store, the review list with it, as it was. *)
Theorem addReview_once (now1 now2 : Z) (productId body1 body2 : string)
    (rating1 rating2 : Z) (context1 context2 : IUserContext) (cu1 cu2 : AuthUser)
    (store : DB) (p : Product.t) :
  user context1 = Some cu1 ->
  user context2 = Some cu2 ->
  auth_username cu2 = auth_username cu1 ->
  findById productId (Products store) = Some p ->
  List.find (authored_by (auth_username cu1)) (Product.reviews p) = None ->
  exists store1,
    addReview now1 productId body1 rating1 context1 store = (Returned p, store1) /\
    findById productId (Products store1) =
      Some (Product.with_reviews
              (Product.reviews p ++ [Review.mk (auth_username cu1) body1 rating1 now1]) p) /\
    addReview now2 productId body2 rating2 context2 store1 =
      (Thrown alreadyReviewed, store1) /\
    error_code alreadyReviewed = Some "FORBIDDEN".
Proof.
  intros Hcu1 Hcu2 Hname Hp Hnone.
  apply findById_Some in Hp as Hid. destruct Hid as [_ Hid].
  unfold addReview. rewrite Hcu1, Hcu2, Hname. step_async.
  rewrite Hp, Hnone. unfold findByIdAndUpdate. rewrite Hp. step_async.
  eexists. split; [reflexivity|]. cbn [Products with_Products].
  erewrite findById_save; [|exact Hid|by rewrite Hp].
  split; [reflexivity|]. cbn [Product.reviews Product.with_reviews].
  rewrite find_app_None by exact Hnone. cbn.
  unfold authored_by at 1. cbn. rewrite bool_decide_true by reflexivity.
  split; reflexivity.
Qed.

(** Alice reviews the mug, then tries again. *)
Lemma addReview_once_witness :
  exists store1,
    addReview 10 "p1" "Sturdy." 5 as_alice shop = (Returned mug, store1) /\
    findById "p1" (Products store1) =
      Some (Product.with_reviews [Review.mk "alice" "Sturdy." 5 10] mug) /\
    addReview 20 "p1" "Sturdy indeed." 4 as_alice store1 =
      (Thrown alreadyReviewed, store1) /\
    error_code alreadyReviewed = Some "FORBIDDEN".
Proof.
  apply (addReview_once 10 20 "p1" "Sturdy." "Sturdy indeed." 5 4
           as_alice as_alice alice alice shop mug); reflexivity.
Defined.



(** ** Baskets *)

Lemma fmap_assign_first {A B} (g : A -> B) (P : A -> bool) (f : A -> A) (l : list A) :
  (forall x, g (f x) = g x) -> g <$> assign_first P f l = g <$> l.
Proof.
  intros Hg. induction l as [|x l IH]; cbn; [reflexivity|].
  destruct (P x); cbn; [by rewrite Hg | by rewrite IH].
Qed.





(** C7, as amended: for an authenticated user with a record and an
    existing product without a line in that user's basket,
    [removeBasketItem] and [decrementBasketItem] leave the store, the
    basket with it, as it was, and throw the forbidden error: the loop finds
    no line and control reaches the [throw] that closes the resolver. *)
Theorem absent_line_is_forbidden (productId : string) (context : IUserContext)
    (cu : AuthUser) (store : DB) (u : User.t) :
  user context = Some cu ->
  is_Some (findById productId (Products store)) ->
  findById (auth_id cu) (Users store) = Some u ->
  productId ∉ BasketItem.product <$> User.basket u ->
  removeBasketItem productId context store = (Thrown forbiddenException, store) /\
  decrementBasketItem productId context store = (Thrown forbiddenException, store).
Proof.
  intros Hcu [p Hp] Hu Hfresh. apply find_line_None in Hfresh.
  unfold removeBasketItem, decrementBasketItem. rewrite Hcu. step_async.
  by rewrite Hp, Hu, Hfresh.
Qed.

(** Alice has no pen in her basket. *)
Lemma absent_line_is_forbidden_witness :
  removeBasketItem "p2" as_alice shop = (Thrown forbiddenException, shop) /\
  decrementBasketItem "p2" as_alice shop = (Thrown forbiddenException, shop).
Proof.
  apply (absent_line_is_forbidden "p2" as_alice alice shop alice_doc).
  - reflexivity.
  - by exists pen.
  - reflexivity.
  - cbn. apply not_elem_of_nil.
Defined.

(** C7, as stated, fails: alice is authenticated, the mug is in the catalog
    and her basket has no line for it, yet neither resolver returns: both
    throw the forbidden error. *)
Lemma absent_line_is_not_silent :
  user as_alice = Some alice /\
  findById "p1" (Products shop) = Some mug /\
  findById (auth_id alice) (Users shop) = Some alice_doc /\
  lines_of "p1" alice_doc = [] /\
  removeBasketItem "p1" as_alice shop = (Thrown forbiddenException, shop) /\
  decrementBasketItem "p1" as_alice shop = (Thrown forbiddenException, shop) /\
  ~ (exists r store', removeBasketItem "p1" as_alice shop = (Returned r, store')) /\
  ~ (exists r store', decrementBasketItem "p1" as_alice shop = (Returned r, store')).
Proof.
  repeat split; try reflexivity.
  - intros (r & store' & Hcall). vm_compute in Hcall. discriminate.
  - intros (r & store' & Hcall). vm_compute in Hcall. discriminate.
Qed.

(** ** Checkout *)

Lemma Object_keys_spec (productQuantities : gmap string Z) (id : string) :
  id ∈ Object_keys productQuantities <-> is_Some (productQuantities !! id).
Proof.
  unfold Object_keys. rewrite list_elem_of_fmap. split.
  - intros ([k v] & -> & Hin). apply elem_of_map_to_list in Hin. by exists v.
  - intros [v Hv]. exists (id, v). split; [reflexivity|]. by apply elem_of_map_to_list.
Qed.

Lemma counted (products : list string) (productQuantities : gmap string Z) (id : string) :
  is_Some (fold_left count products productQuantities !! id) <->
  id ∈ products \/ is_Some (productQuantities !! id).
Proof.
  revert productQuantities.
  induction products as [|x products IH]; intros productQuantities; cbn.
  - split; [by right|]. intros [Hin|Hpq]; [inversion Hin | exact Hpq].
  - rewrite IH, elem_of_cons. unfold count.
    destruct (decide (x = id)) as [->|Hne].
    + rewrite lookup_insert_eq. split; [intros _; by left; left|]. intros _. right. eauto.
    + rewrite lookup_insert_ne by exact Hne. split.
      * intros [Hin|Hpq]; [left; by right | by right].
      * intros [[Heq|Hin]|Hpq]; [congruence | by left | by right].
Qed.

Lemma found_in_catalog (products : list string) (c : list Product.t) (p : Product.t) :
  p ∈ Product_find_in (Object_keys (fold_left count products ∅)) c <->
  p ∈ c /\ Product._id p ∈ products.
Proof.
  unfold Product_find_in. rewrite list_elem_of_filter, Object_keys_spec, counted.
  rewrite lookup_empty. split.
  - intros [[Hin|[? [=]]] Hc]. by split.
  - intros [Hc Hin]. split; [by left | exact Hc].
Qed.

Lemma record_order_recorded cu order store :
  record_order cu order store = (Returned tt, recorded cu order store).
Proof.
  unfold record_order, recorded. step_async.
  by destruct (findById (auth_id cu) (Users store)).
Qed.

Lemma Products_recorded cu order store :
  Products (recorded cu order store) = Products store.
Proof. unfold recorded. by destruct (findById (auth_id cu) (Users store)). Qed.

Lemma accepting_S n answers :
  accepting (S n) answers -> hd true answers = true /\ accepting n (tl answers).
Proof.
  unfold accepting. destruct answers as [|a answers]; cbn.
  - intros _. split; [reflexivity|]. rewrite take_nil. constructor.
  - intros Hall. apply Forall_cons in Hall as [<- Hall]. by split.
Qed.

Lemma send_accepted r account :
  hd true (Stripe.answers account) = true ->
  Stripe.send r account =
    (Returned (length (Stripe.requests account)),
     Stripe.mk (Stripe.requests account ++ [(r, true)]) (tl (Stripe.answers account))).
Proof. intros Hhd. unfold Stripe.send. by rewrite Hhd. Qed.

Lemma line_items_loop_accepted products productQuantities line_items account :
  accepting (2 * length products) (Stripe.answers account) ->
  line_items_loop products productQuantities line_items account =
    (Returned
       (line_items ++
        line_items_for (length (Stripe.requests account)) products productQuantities),
     Stripe.mk
       (Stripe.requests account ++
        requests_for (length (Stripe.requests account)) products)
       (drop (2 * length products) (Stripe.answers account))).
Proof.
  revert line_items account.
  induction products as [|product products IH]; intros line_items [requests answers]; cbn.
  - intros _. unfold ret. by rewrite !app_nil_r.
  - replace (length products + S (length products + 0))%nat
      with (S (2 * length products)) by lia.
    intros Hall. apply accepting_S in Hall as [Hfirst Hall].
    apply accepting_S in Hall as [Hsecond Hall].
    unfold bind at 1. unfold Stripe.products_create.
    rewrite send_accepted by exact Hfirst. cbn [Stripe.requests Stripe.answers].
    unfold bind at 1. unfold Stripe.prices_create.
    rewrite send_accepted by exact Hsecond. cbn [Stripe.requests Stripe.answers].
    rewrite IH by exact Hall. cbn [Stripe.requests Stripe.answers].
    rewrite !length_app. cbn [length].
    replace (length requests + 1 + 1)%nat with (S (S (length requests))) by lia.
    replace (length requests + 1)%nat with (S (length requests)) by lia.
    rewrite <- !app_assoc. cbn [app].
    destruct answers as [|a1 [|a2 answers]]; cbn; rewrite ?drop_nil; reflexivity.
Qed.

Lemma line_items_loop_throws products productQuantities line_items account e :
  (line_items_loop products productQuantities line_items account).1 = Thrown e ->
  e = Stripe.rejected.
Proof.
  revert line_items account.
  induction products as [|product products IH]; intros line_items account; cbn.
  - discriminate.
  - unfold bind, Stripe.products_create, Stripe.prices_create, Stripe.send.
    destruct (hd true (Stripe.answers account)); cbn; [|by intros [= <-]].
    destruct (hd true (tl (Stripe.answers account))); cbn; [|by intros [= <-]].
    apply IH.
Qed.

Section CheckoutFacts.
Variable URL_origin : string -> option string.

Lemma payment_session_db url order w :
  db (payment_session url order w).2 = db w.
Proof.
  unfold payment_session, bind, onDB, onStripe, get, ret. cbn.
  destruct (line_items_loop _ _ _ _) as [[line_items|e] account']; cbn; [|reflexivity].
  by destruct (Stripe.checkout_sessions_create _ _) as [[session|e] account''].
Qed.

Lemma payment_session_throws url order w e :
  (payment_session url order w).1 = Thrown e -> e = Stripe.rejected.
Proof.
  unfold payment_session, bind, onDB, onStripe, get, ret. cbn.
  destruct (line_items_loop _ _ _ _) as [[line_items|e'] account'] eqn:Hloop; cbn.
  - unfold Stripe.checkout_sessions_create, Stripe.send.
    destruct (hd true (Stripe.answers account')); cbn; [discriminate | by intros [= <-]].
  - intros [= <-]. eapply line_items_loop_throws. by rewrite Hloop.
Qed.

Lemma payment_session_accepted url order w :
  let productQuantities := fold_left count (Order.products order) ∅ in
  let found := Product_find_in (Object_keys productQuantities) (Products (db w)) in
  let next := length (Stripe.requests (stripe w)) in
  let rest := drop (2 * length found) (Stripe.answers (stripe w)) in
  let session := (next + 2 * length found)%nat in
  accepting (2 * length found) (Stripe.answers (stripe w)) ->
  payment_session url order w =
    (if hd true rest
     then Returned (mkCheckoutSession session (Stripe.session_url session))
     else Thrown Stripe.rejected,
     mkWorld (db w)
       (Stripe.mk
          (Stripe.requests (stripe w) ++ requests_for next found ++
           [(Stripe.SessionsCreate
               (session_params url (line_items_for next found productQuantities)),
             hd true rest)])
          (tl rest))).
Proof.
  intros productQuantities found next rest session Hall.
  unfold payment_session, bind, onDB, onStripe, get, ret. cbn.
  fold productQuantities. fold found.
  rewrite line_items_loop_accepted by exact Hall. cbn.
  unfold Stripe.checkout_sessions_create, Stripe.send. cbn.
  fold next. fold rest.
  assert (length (Stripe.requests (stripe w) ++ requests_for next found) = session)
    as Hsession.
  { rewrite length_app. unfold session. f_equal.
    clearbody found next. clear. revert next.
    induction found as [|p found IH]; intros next; cbn; [reflexivity|].
    rewrite IH. lia. }
  rewrite Hsession, <- app_assoc.
  by destruct (hd true _).
Qed.

Lemma checkout_authenticated now products context cu url w :
  user context = Some cu ->
  origin URL_origin context = Returned url ->
  checkout URL_origin now products context w =
    payment_session url (Order.mk products now)
      (mkWorld (recorded cu (Order.mk products now) (db w)) (stripe w)).
Proof.
  intros Hcu Hurl. unfold checkout. rewrite Hcu.
  unfold bind at 1. unfold settle. rewrite Hurl.
  unfold bind at 1. unfold onDB. by rewrite record_order_recorded.
Qed.
End CheckoutFacts.

Lemma length_line_items_for next products productQuantities :
  length (line_items_for next products productQuantities) = length products.
Proof.
  revert next. induction products as [|p products IH]; intros next; cbn; [reflexivity|].
  by rewrite IH.
Qed.

Lemma recorded_found cu order store u :
  findById (auth_id cu) (Users store) = Some u ->
  findById (auth_id cu) (Users (recorded cu order store)) =
    Some (User.with_orders (User.orders u ++ [order]) u).
Proof.
  intros Hu. unfold recorded. rewrite Hu. cbn.
  apply findById_Some in Hu as Hid. destruct Hid as [_ Hid].
  apply findById_save; [exact Hid | by rewrite Hu].
Qed.

Section CheckoutOrder.
Variable URL_origin : string -> option string.

(** C4, as amended: for an authenticated user with a record, a checkout
    that got past its referer (the request has no headers, or a referer
    of which the URL constructor gives the origin) appends the order (the
    list as given, dated now) to the user's orders and saves the user,
    whose identifier and basket, like the other users, the products and
    the categories, stay as they were, while the Stripe account is still
    untouched; the rest of the checkout runs on that saved store and never
    writes to it, so the order stays whether the payment session is
    created or not: after a checkout that throws there, the user has
    exactly one order more. *)
Theorem checkout_records_order_first (now : Z) (products : list string)
    (context : IUserContext) (cu : AuthUser) (url : option string) (w : World)
    (u : User.t) :
  user context = Some cu ->
  origin URL_origin context = Returned url ->
  findById (auth_id cu) (Users (db w)) = Some u ->
  let order := Order.mk products now in
  let result := checkout URL_origin now products context w in
  exists u' saved,
    Order.products order = products /\
    Order.purchaseDate order = now /\
    findById (auth_id cu) (Users saved) = Some u' /\
    User.orders u' = User.orders u ++ [order] /\
    User._id u' = User._id u /\
    User.basket u' = User.basket u /\
    (forall other, other <> auth_id cu ->
       findById other (Users saved) = findById other (Users (db w))) /\
    Products saved = Products (db w) /\
    Categories saved = Categories (db w) /\
    result = payment_session url order (mkWorld saved (stripe w)) /\
    db result.2 = saved /\
    (forall e, result.1 = Thrown e ->
       exists u'', findById (auth_id cu) (Users (db result.2)) = Some u'' /\
         User.orders u'' = User.orders u ++ [order] /\
         length (User.orders u'') = S (length (User.orders u))).
Proof.
  intros Hcu Hurl Hu order result.
  set (u' := User.with_orders (User.orders u ++ [order]) u).
  set (saved := with_Users (save u' (Users (db w))) (db w)).
  assert (recorded cu order (db w) = saved) as Hsaved.
  { unfold recorded. by rewrite Hu. }
  assert (findById (auth_id cu) (Users saved) = Some u') as Hu'.
  { rewrite <- Hsaved. by apply recorded_found. }
  assert (result = payment_session url order (mkWorld saved (stripe w))) as Hresult.
  { unfold result. rewrite (checkout_authenticated _ _ _ _ cu url) by assumption.
    fold order. by rewrite Hsaved. }
  assert (db result.2 = saved) as Hdb.
  { rewrite Hresult. by rewrite payment_session_db. }
  exists u', saved.
  do 2 (split; [reflexivity|]). split; [exact Hu'|].
  do 3 (split; [reflexivity|]).
  split.
  { intros other Hother. apply findById_save_ne.
    apply findById_Some in Hu as [_ Hid].
    change (doc_id u') with (doc_id u). congruence. }
  do 2 (split; [reflexivity|]).
  split; [exact Hresult|]. split; [exact Hdb|].
  intros e _. exists u'. rewrite Hdb. split; [exact Hu'|]. split; [reflexivity|].
  cbn. rewrite length_app. cbn. lia.
Qed.

(** C10, as amended: for an authenticated user with a record, a checkout
    that got past its referer (the request has no headers, or a referer
    of which the URL constructor gives the origin) appends to the orders
    of the user an order that holds the list as given, identifiers without
    a product included; it fetches the products of the catalog named in
    the list, and nothing for the other identifiers; the only error it
    can throw is a rejection by Stripe, never a not-found error; when
    Stripe accepts the products and prices, the session is requested with
    one line item per fetched product; and for a list of identifiers none
    of which has a product, the order is appended and the one request sent
    to Stripe is that of a session without line items. *)
Theorem checkout_unknown_products (now : Z) (products : list string)
    (context : IUserContext) (cu : AuthUser) (url : option string) (w : World)
    (u : User.t) :
  user context = Some cu ->
  origin URL_origin context = Returned url ->
  findById (auth_id cu) (Users (db w)) = Some u ->
  let order := Order.mk products now in
  let result := checkout URL_origin now products context w in
  let found :=
    Product_find_in (Object_keys (fold_left count products ∅)) (Products (db w)) in
  let next := length (Stripe.requests (stripe w)) in
  (exists u',
     findById (auth_id cu) (Users (db result.2)) = Some u' /\
     User.orders u' = User.orders u ++ [order] /\
     Order.products order = products /\
     Order.purchaseDate order = now /\
     length (User.orders u') = S (length (User.orders u))) /\
  (forall e, result.1 = Thrown e ->
     e = Stripe.rejected /\ error_code e <> Some "NOT_FOUND") /\
  (forall p, p ∈ found <-> p ∈ Products (db w) /\ Product._id p ∈ products) /\
  (accepting (2 * length found) (Stripe.answers (stripe w)) ->
     exists params verdict,
       Stripe.requests (stripe result.2) =
         Stripe.requests (stripe w) ++ requests_for next found ++
         [(Stripe.SessionsCreate params, verdict)] /\
       length (Stripe.line_items params) = length found) /\
  ((forall id, id ∈ products -> findById id (Products (db w)) = None) ->
     let verdict := hd true (Stripe.answers (stripe w)) in
     found = [] /\
     Stripe.requests (stripe result.2) =
       Stripe.requests (stripe w) ++
       [(Stripe.SessionsCreate (session_params url []), verdict)] /\
     result.1 =
       if verdict
       then Returned (mkCheckoutSession next (Stripe.session_url next))
       else Thrown Stripe.rejected).
Proof.
  intros Hcu Hurl Hu order result found next.
  assert (result =
          payment_session url order (mkWorld (recorded cu order (db w)) (stripe w)))
    as Hresult by (by apply checkout_authenticated).
  pose proof (payment_session_accepted url order
                (mkWorld (recorded cu order (db w)) (stripe w))) as Haccepted.
  cbn [db stripe Order.products order] in Haccepted.
  rewrite Products_recorded in Haccepted. fold found next in Haccepted.
  rewrite <- Hresult in Haccepted.
  split; [|split; [|split; [|split]]].
  - eexists. split; [rewrite Hresult, payment_session_db; by apply recorded_found|].
    do 3 (split; [reflexivity|]). cbn. rewrite length_app. cbn. lia.
  - intros e He. rewrite Hresult in He. apply payment_session_throws in He.
    subst e. split; [reflexivity | discriminate].
  - intros p. apply found_in_catalog.
  - intros Hall. rewrite (Haccepted Hall). cbn. do 2 eexists.
    split; [reflexivity|]. cbn. apply length_line_items_for.
  - intros Hunknown verdict.
    assert (found = []) as Hfound.
    { destruct found as [|p found'] eqn:Hfound'; [reflexivity|].
      assert (p ∈ found) as Hp by (rewrite Hfound'; left).
      apply found_in_catalog in Hp as [Hc Hin].
      specialize (Hunknown _ Hin). rewrite findById_None in Hunknown.
      by destruct (Hunknown p Hc). }
    split; [exact Hfound|]. clearbody found. subst found.
    rewrite Haccepted by (unfold accepting; cbn; constructor).
    cbn. rewrite Nat.add_0_r. split; reflexivity.
Qed.
End CheckoutOrder.

Lemma findById_elem {D : Type} `{Document D} (c : list D) (x : D) :
  NoDup (doc_id <$> c) -> x ∈ c -> findById (doc_id x) c = Some x.
Proof.
  induction c as [|y c IH]; intros Hnodup Hx; [inversion Hx|].
  rewrite fmap_cons in Hnodup. apply NoDup_cons in Hnodup as [Hy Hnodup]. cbn.
  case_bool_decide as Hid.
  - apply elem_of_cons in Hx as [->|Hx]; [reflexivity|].
    destruct Hy. rewrite Hid. by apply list_elem_of_fmap_2.
  - apply elem_of_cons in Hx as [->|Hx]; [congruence | by apply IH].
Qed.

Lemma unit_amount_sale_aware (p : Product.t) : sale_aware p (unit_amount_of p).
Proof.
  unfold sale_aware, unit_amount_of, finalPrice.
  destruct (Product.salePrice p) as [salePrice|], (Product.onSale p); cbn;
    repeat split; try discriminate; try reflexivity.
  - intros _ sp [= <-] Hsp. by rewrite Hsp.
  - intros _ Hfalsy. by rewrite (Hfalsy salePrice eq_refl).
Qed.

Lemma found_two (c : list Product.t) (P1 P2 : Product.t) :
  NoDup (Product._id <$> c) ->
  findById "p1" c = Some P1 ->
  findById "p2" c = Some P2 ->
  let found := Product_find_in (Object_keys (fold_left count ["p1"; "p1"; "p2"] ∅)) c in
  found = [P1; P2] \/ found = [P2; P1].
Proof.
  intros Hnodup H1 H2 found.
  apply findById_Some in H1 as Hin1. destruct Hin1 as [Hin1 Hid1].
  apply findById_Some in H2 as Hin2. destruct Hin2 as [Hin2 Hid2].
  apply Permutation_length_2_inv. apply NoDup_Permutation.
  - apply NoDup_cons. split; [|apply NoDup_singleton].
    intros Heq. apply list_elem_of_singleton in Heq. subst P2.
    rewrite Hid1 in Hid2. discriminate.
  - apply NoDup_filter. by apply NoDup_fmap_1 in Hnodup.
  - intros x. unfold found. rewrite found_in_catalog. split.
    + intros Hx. apply elem_of_cons in Hx as [->|Hx].
      * split; [exact Hin1|]. change (Product._id P1) with (doc_id P1).
        rewrite Hid1. left.
      * apply list_elem_of_singleton in Hx. subst x.
        split; [exact Hin2|]. change (Product._id P2) with (doc_id P2).
        rewrite Hid2. right. right. left.
    + intros [Hc Hid].
      pose proof (findById_elem (H := Product_Document) c x Hnodup Hc) as Hx.
      assert (doc_id x ∈ ["p1"; "p1"; "p2"]) as Hdoc by exact Hid.
      clear Hid. rename Hdoc into Hid.
      apply elem_of_cons in Hid as [Hid|Hid];
        [|apply elem_of_cons in Hid as [Hid|Hid];
          [|apply list_elem_of_singleton in Hid]];
        rewrite Hid in Hx.
      * rewrite H1 in Hx. injection Hx as <-. left.
      * rewrite H1 in Hx. injection Hx as <-. left.
      * rewrite H2 in Hx. injection Hx as <-. right. left.
Qed.

(** The request logged at offset [k] after the requests already there. *)
Ltac retrieve_at k :=
  unfold Stripe.retrieve_price, Stripe.retrieve;
  cbn [Stripe.requests Stripe.price];
  rewrite lookup_app_r by lia;
  match goal with
  | |- context [(?a - ?b)%nat] => replace (a - b)%nat with k by lia
  end;
  reflexivity.

Section CheckoutManifest.
Variable URL_origin : string -> option string.

(** C3, as amended: for an authenticated user, a checkout of
    ["p1"; "p1"; "p2"] that got past its referer (the request has no
    headers, or a referer of which the URL constructor gives the origin),
    on a catalog that has one product per identifier and holds p1 and p2,
    and with Stripe accepting the two products and the two prices, counts
    p1 twice and p2 once, and sends one session request, with
    exactly two line items: one with quantity 2 and the price created for
    p1, one with quantity 1 and the price created for p2, each price being
    the product's sale price in cents when the product is on sale with a
    sale price that is present and counts as true (neither zero nor NaN),
    and its list price in cents otherwise. *)
Theorem checkout_p1_p1_p2 (now : Z) (context : IUserContext) (cu : AuthUser)
    (url : option string) (w : World) (P1 P2 : Product.t) :
  user context = Some cu ->
  origin URL_origin context = Returned url ->
  NoDup (Product._id <$> Products (db w)) ->
  findById "p1" (Products (db w)) = Some P1 ->
  findById "p2" (Products (db w)) = Some P2 ->
  accepting 4 (Stripe.answers (stripe w)) ->
  let result := checkout URL_origin now ["p1"; "p1"; "p2"] context w in
  fold_left count ["p1"; "p1"; "p2"] ∅ = {["p1" := 2; "p2" := 1]} /\
  exists sent params verdict item1 item2,
    Stripe.requests (stripe result.2) =
      Stripe.requests (stripe w) ++ sent ++ [(Stripe.SessionsCreate params, verdict)] /\
    Forall (fun r => forall ps, r.1 <> Stripe.SessionsCreate ps) sent /\
    (Stripe.line_items params = [item1; item2] \/
     Stripe.line_items params = [item2; item1]) /\
    Stripe.quantity item1 = Some 2 /\
    Stripe.quantity item2 = Some 1 /\
    priced (stripe result.2) item1 P1 /\
    priced (stripe result.2) item2 P2.
Proof.
  intros Hcu Hurl Hnodup H1 H2 Hall result.
  split; [by vm_compute|].
  set (order := Order.mk ["p1"; "p1"; "p2"] now).
  assert (result =
          payment_session url order (mkWorld (recorded cu order (db w)) (stripe w)))
    as Hresult by (by apply checkout_authenticated).
  pose proof (payment_session_accepted url order
                (mkWorld (recorded cu order (db w)) (stripe w))) as Haccepted.
  cbn [db stripe Order.products order] in Haccepted.
  rewrite Products_recorded, <- Hresult in Haccepted.
  set (productQuantities := fold_left count ["p1"; "p1"; "p2"] ∅) in *.
  assert (productQuantities !! "p1" = Some 2) as Hq1 by (by vm_compute).
  assert (productQuantities !! "p2" = Some 1) as Hq2 by (by vm_compute).
  apply findById_Some in H1 as Hid1. destruct Hid1 as [_ Hid1].
  apply findById_Some in H2 as Hid2. destruct Hid2 as [_ Hid2].
  change (doc_id P1) with (Product._id P1) in Hid1.
  change (doc_id P2) with (Product._id P2) in Hid2.
  remember (length (Stripe.requests (stripe w))) as next eqn:Hnext.
  destruct (found_two _ _ _ Hnodup H1 H2) as [Hfound|Hfound];
    fold productQuantities in Hfound; rewrite Hfound in Haccepted;
    specialize (Haccepted Hall); rewrite Haccepted;
    cbn [snd stripe Stripe.requests requests_for line_items_for length Nat.mul Nat.add].
  - eexists _, _, _, (Stripe.mkLineItem (S next) (Some 2)),
      (Stripe.mkLineItem (S (S (S next))) (Some 1)).
    split; [reflexivity|]. split; [repeat constructor; discriminate|].
    split; [left; unfold session_params; cbn [Stripe.line_items];
            by rewrite Hid1, Hid2, Hq1, Hq2|].
    split; [reflexivity|]. split; [reflexivity|].
    split.
    + eexists. split; [retrieve_at 1%nat | apply unit_amount_sale_aware].
    + eexists. split; [retrieve_at 3%nat | apply unit_amount_sale_aware].
  - eexists _, _, _, (Stripe.mkLineItem (S (S (S next))) (Some 2)),
      (Stripe.mkLineItem (S next) (Some 1)).
    split; [reflexivity|]. split; [repeat constructor; discriminate|].
    split; [right; unfold session_params; cbn [Stripe.line_items];
            by rewrite Hid1, Hid2, Hq1, Hq2|].
    split; [reflexivity|]. split; [reflexivity|].
    split.
    + eexists. split; [retrieve_at 3%nat | apply unit_amount_sale_aware].
    + eexists. split; [retrieve_at 1%nat | apply unit_amount_sale_aware].
Qed.
End CheckoutManifest.

(** The identifiers of the shop's products are distinct. *)
Lemma shop_ids_distinct : NoDup (Product._id <$> Products shop).
Proof. by apply (bool_decide_unpack _). Qed.

(** Alice checks out two mugs and a pen. *)
Lemma checkout_p1_p1_p2_witness :
  let w := mkWorld shop (account []) in
  let result := checkout http_origin 42 ["p1"; "p1"; "p2"] as_alice w in
  fold_left count ["p1"; "p1"; "p2"] ∅ = {["p1" := 2; "p2" := 1]} /\
  exists sent params verdict item1 item2,
    Stripe.requests (stripe result.2) =
      Stripe.requests (stripe w) ++ sent ++ [(Stripe.SessionsCreate params, verdict)] /\
    Forall (fun r => forall ps, r.1 <> Stripe.SessionsCreate ps) sent /\
    (Stripe.line_items params = [item1; item2] \/
     Stripe.line_items params = [item2; item1]) /\
    Stripe.quantity item1 = Some 2 /\
    Stripe.quantity item2 = Some 1 /\
    priced (stripe result.2) item1 mug /\
    priced (stripe result.2) item2 pen.
Proof.
  apply (checkout_p1_p1_p2 http_origin 42 as_alice alice (Some "http://localhost:3000")
           (mkWorld shop (account [])) mug pen).
  - reflexivity.
  - reflexivity.
  - exact shop_ids_distinct.
  - reflexivity.
  - reflexivity.
  - unfold accepting. cbn. constructor.
Defined.

(** C3, as stated, fails, in three ways. With p1 on sale at a sale price of
    zero, the line item of p1 is priced at its list price, 1250 cents, not
    at its sale price. For authenticated alice with headers and no referer,
    the checkout throws before it sends anything. And when Stripe refuses
    the first product, the checkout throws without a session request. *)
Lemma checkout_p1_p1_p2_fails :
  (let w := mkWorld clearance (account []) in
   let result := checkout http_origin 42 ["p1"; "p1"; "p2"] as_alice w in
   findById "p1" (Products clearance) = Some free_mug /\
   Product.onSale free_mug = true /\
   Product.salePrice free_mug = Some 0%float /\
   exists params price,
     last (Stripe.requests (stripe result.2)) = Some (Stripe.SessionsCreate params, true) /\
     Stripe.line_items params =
       [Stripe.mkLineItem 1%nat (Some 2); Stripe.mkLineItem 3%nat (Some 1)] /\
     Stripe.retrieve_price (stripe result.2) 1%nat = Some price /\
     Stripe.unit_amount price =
       Math_round (PrimFloat.mul (Product.price free_mug) hundred) /\
     Stripe.unit_amount price = 1250%float /\
     Stripe.unit_amount price <> Math_round (PrimFloat.mul 0%float hundred)) /\
  (let w := mkWorld shop (account []) in
   user as_alice_script = Some alice /\
   findById "p1" (Products shop) = Some mug /\
   findById "p2" (Products shop) = Some pen /\
   checkout http_origin 42 ["p1"; "p1"; "p2"] as_alice_script w = (Thrown invalidURL, w) /\
   Stripe.requests (stripe w) = []) /\
  (let w := mkWorld shop (account [false]) in
   let result := checkout http_origin 42 ["p1"; "p1"; "p2"] as_alice w in
   result.1 = Thrown Stripe.rejected /\
   Stripe.requests (stripe result.2) =
     [(Stripe.ProductsCreate (Stripe.mkProduct "Mug" "A mug." ["mug.png"]), false)]).
Proof.
  split; [|split].
  - cbv zeta. split; [reflexivity|]. split; [reflexivity|]. split; [reflexivity|].
    eexists. eexists.
    split; [by vm_compute|]. split; [reflexivity|]. split; [by vm_compute|].
    split; [by vm_compute|]. split; [by vm_compute|].
    intros Heq. apply (f_equal PrimFloat.is_zero) in Heq. vm_compute in Heq.
    discriminate.
  - by vm_compute.
  - by vm_compute.
Qed.

(** Stripe refuses the first request of the checkout: the checkout throws,
    and the order is among the orders of alice. *)
Lemma checkout_records_order_first_witness :
  let w := mkWorld shop (account [false]) in
  let order := Order.mk ["p1"; "p2"] 42 in
  let result := checkout http_origin 42 ["p1"; "p2"] as_alice w in
  result.1 = Thrown Stripe.rejected /\
  exists u' saved,
    Order.products order = ["p1"; "p2"] /\
    Order.purchaseDate order = 42 /\
    findById "u1" (Users saved) = Some u' /\
    User.orders u' = [order] /\
    User._id u' = "u1" /\
    User.basket u' = [] /\
    (forall other, other <> "u1" ->
       findById other (Users saved) = findById other (Users shop)) /\
    Products saved = Products shop /\
    Categories saved = Categories shop /\
    result = payment_session (Some "http://localhost:3000") order
               (mkWorld saved (stripe w)) /\
    db result.2 = saved /\
    (forall e, result.1 = Thrown e ->
       exists u'', findById "u1" (Users (db result.2)) = Some u'' /\
         User.orders u'' = [order] /\
         length (User.orders u'') = 1%nat).
Proof.
  split; [reflexivity|].
  apply (checkout_records_order_first http_origin 42 ["p1"; "p2"] as_alice alice
           (Some "http://localhost:3000") (mkWorld shop (account [false])) alice_doc);
    reflexivity.
Defined.

(** C4, as stated, fails, in two ways. For authenticated alice, who has a
    record, with headers and no referer, the checkout throws before it
    loads the user: it has failed and alice has no order more. For
    carol, who is authenticated and has no record, the checkout returns
    a session and no order is appended to anything. *)
Lemma checkout_may_record_no_order :
  (let w := mkWorld shop (account []) in
   let result := checkout http_origin 42 ["p1"; "p2"] as_alice_script w in
   user as_alice_script = Some alice /\
   findById "u1" (Users shop) = Some alice_doc /\
   result = (Thrown invalidURL, w) /\
   User.orders <$> findById "u1" (Users (db result.2)) = Some (User.orders alice_doc)) /\
  (let w := mkWorld shop (account []) in
   let result := checkout http_origin 42 ["p1"; "p2"] as_carol w in
   user as_carol = Some carol /\
   findById "u3" (Users shop) = None /\
   (exists session, result.1 = Returned session) /\
   db result.2 = shop).
Proof.
  split.
  - by vm_compute.
  - cbv zeta. split; [reflexivity|]. split; [reflexivity|].
    split; [eexists; by vm_compute | by vm_compute].
Qed.

(** A checkout of a pen and of two identifiers without a product, and a
    checkout of the two identifiers alone. *)
Lemma checkout_unknown_products_witness :
  (let w := mkWorld shop (account []) in
   let order := Order.mk ["zz"; "p2"; "yy"] 42 in
   let result := checkout http_origin 42 ["zz"; "p2"; "yy"] as_alice w in
   let found :=
     Product_find_in (Object_keys (fold_left count ["zz"; "p2"; "yy"] ∅)) (Products shop) in
   (exists u',
      findById "u1" (Users (db result.2)) = Some u' /\
      User.orders u' = [order] /\
      Order.products order = ["zz"; "p2"; "yy"] /\
      Order.purchaseDate order = 42 /\
      length (User.orders u') = 1%nat) /\
   (forall e, result.1 = Thrown e ->
      e = Stripe.rejected /\ error_code e <> Some "NOT_FOUND") /\
   (forall p, p ∈ found <-> p ∈ Products shop /\ Product._id p ∈ ["zz"; "p2"; "yy"]) /\
   (accepting (2 * length found) [] ->
      exists params verdict,
        Stripe.requests (stripe result.2) =
          [] ++ requests_for 0%nat found ++ [(Stripe.SessionsCreate params, verdict)] /\
        length (Stripe.line_items params) = length found) /\
   ((forall id, id ∈ ["zz"; "p2"; "yy"] -> findById id (Products shop) = None) ->
      let verdict := true in
      found = [] /\
      Stripe.requests (stripe result.2) =
        [] ++ [(Stripe.SessionsCreate (session_params (Some "http://localhost:3000") []),
                verdict)] /\
      result.1 =
        if verdict
        then Returned (mkCheckoutSession 0%nat (Stripe.session_url 0%nat))
        else Thrown Stripe.rejected)) /\
  (let w := mkWorld shop (account []) in
   let order := Order.mk ["zz"; "yy"] 42 in
   let result := checkout http_origin 42 ["zz"; "yy"] as_alice w in
   (forall id, id ∈ ["zz"; "yy"] -> findById id (Products shop) = None) /\
   (exists u',
      findById "u1" (Users (db result.2)) = Some u' /\
      User.orders u' = [order]) /\
   Stripe.requests (stripe result.2) =
     [(Stripe.SessionsCreate (session_params (Some "http://localhost:3000") []), true)] /\
   result.1 = Returned (mkCheckoutSession 0%nat (Stripe.session_url 0%nat))).
Proof.
  split.
  - apply (checkout_unknown_products http_origin 42 ["zz"; "p2"; "yy"] as_alice alice
             (Some "http://localhost:3000") (mkWorld shop (account [])) alice_doc);
      reflexivity.
  - assert (forall id, id ∈ ["zz"; "yy"] -> findById id (Products shop) = None)
      as Hunknown.
    { intros id Hid. apply elem_of_cons in Hid as [->|Hid]; [reflexivity|].
      apply list_elem_of_singleton in Hid. by subst id. }
    destruct (checkout_unknown_products http_origin 42 ["zz"; "yy"] as_alice alice
                (Some "http://localhost:3000") (mkWorld shop (account [])) alice_doc
                eq_refl eq_refl eq_refl)
      as ((u' & Hfound & Horders & _) & _ & _ & _ & Hnone).
    destruct (Hnone Hunknown) as (_ & Hrequests & Hresult).
    split; [exact Hunknown|]. split; [by exists u'|]. by split.
Defined.

(** C10, as stated, fails, in two ways, on a list of two identifiers
    without a product. For authenticated alice, who has a record, with
    headers and no referer, the checkout aborts: it throws before it
    appends an order or sends a request. For carol, who is authenticated
    and has no record, the session without line items is requested and
    no order is appended to anything. *)
Lemma checkout_of_unknown_products_may_abort :
  (forall id, id ∈ ["zz"; "yy"] -> findById id (Products shop) = None) /\
  (let w := mkWorld shop (account []) in
   let result := checkout http_origin 42 ["zz"; "yy"] as_alice_script w in
   user as_alice_script = Some alice /\
   findById "u1" (Users shop) = Some alice_doc /\
   result = (Thrown invalidURL, w) /\
   User.orders <$> findById "u1" (Users (db result.2)) = Some [] /\
   Stripe.requests (stripe result.2) = []) /\
  (let w := mkWorld shop (account []) in
   let result := checkout http_origin 42 ["zz"; "yy"] as_carol w in
   user as_carol = Some carol /\
   findById "u3" (Users shop) = None /\
   Stripe.requests (stripe result.2) =
     [(Stripe.SessionsCreate (session_params (Some "http://localhost:3000") []), true)] /\
   db result.2 = shop).
Proof.
  split; [|split].
  - intros id Hid. apply elem_of_cons in Hid as [->|Hid]; [reflexivity|].
    apply list_elem_of_singleton in Hid. by subst id.
  - by vm_compute.
  - by vm_compute.
Qed.

(** A checkout of identifiers none of which is in the catalog. *)
Example checkout_only_unknown :
  let w := mkWorld shop (account []) in
  let result := checkout http_origin 42 ["zz"; "yy"] as_alice w in
  result.1 = Returned (mkCheckoutSession 0%nat (Stripe.session_url 0%nat)) /\
  User.orders <$> findById "u1" (Users (db result.2)) = Some [Order.mk ["zz"; "yy"] 42] /\
  Stripe.requests (stripe result.2) =
    [(Stripe.SessionsCreate (session_params (Some "http://localhost:3000") []), true)].
Proof. by vm_compute. Qed.

(** ** The identity check *)

(** Without an identity, each resolver of [Mutation] that changes the
    catalog, the categories, the reviews or a basket throws the forbidden
    error and leaves the store as it was. *)
Lemma mutations_fail_closed (context : IUserContext) (store : DB) :
  user context = None ->
  (forall oid productData,
     addProduct oid productData context store = (Thrown forbiddenException, store)) /\
  (forall productId,
     removeProduct productId context store = (Thrown forbiddenException, store)) /\
  (forall productId quantity,
     addStock productId quantity context store = (Thrown forbiddenException, store)) /\
  (forall productId quantity,
     removeStock productId quantity context store = (Thrown forbiddenException, store)) /\
  (forall oid categoryData,
     addCategory oid categoryData context store = (Thrown forbiddenException, store)) /\
  (forall categoryId,
     removeCategory categoryId context store = (Thrown forbiddenException, store)) /\
  (forall productId categoryId,
     addProductToCategory productId categoryId context store =
       (Thrown forbiddenException, store)) /\
  (forall now productId review rating,
     addReview now productId review rating context store =
       (Thrown forbiddenException, store)) /\
  (forall productId review rating,
     editReview productId review rating context store =
       (Thrown forbiddenException, store)) /\
  (forall now productId quantity,
     addBasketItem now productId quantity context store =
       (Thrown forbiddenException, store)) /\
  (forall productId,
     removeBasketItem productId context store = (Thrown forbiddenException, store)) /\
  (forall productId,
     decrementBasketItem productId context store = (Thrown forbiddenException, store)) /\
  clearBasket context store = (Thrown forbiddenException, store) /\
  error_code forbiddenException = Some "FORBIDDEN".
Proof.
  intros Hnone.
  unfold addProduct, removeProduct, addStock, removeStock, addCategory, removeCategory,
    addProductToCategory, addReview, editReview, addBasketItem, removeBasketItem,
    decrementBasketItem, clearBasket.
  rewrite Hnone. repeat split.
Qed.

Section CheckoutIdentity.
Variable URL_origin : string -> option string.

(** Without an identity a checkout writes nothing and sends nothing; it
    throws the not-authenticated error when it got past its referer, and
    the error of the URL constructor when it did not. *)
Lemma checkout_without_identity (now : Z) (products : list string)
    (context : IUserContext) (w : World) :
  user context = None ->
  (checkout URL_origin now products context w).2 = w /\
  (forall url, origin URL_origin context = Returned url ->
     (checkout URL_origin now products context w).1 = Thrown notAuthenticated) /\
  (forall e, origin URL_origin context = Thrown e ->
     (checkout URL_origin now products context w).1 = Thrown invalidURL).
Proof.
  intros Hnone. unfold checkout, bind, settle. rewrite Hnone.
  unfold origin. destruct (headers context) as [h|]; cbn.
  - destruct (URL_origin (default "" (referer h))); cbn;
      repeat split; intros; congruence.
  - repeat split; intros; congruence.
Qed.

(** C6, where the code departs from it: a checkout whose request carries
    headers computes the origin of the referer before it looks at the
    identity, so without an identity and with a referer that is not a URL
    (an absent one stands for the empty string) it throws the error of the
    URL constructor, which is neither the not-authenticated error nor the
    forbidden one; the store and the Stripe account are as they were. *)
Theorem checkout_reads_referer_before_identity (now : Z) (products : list string)
    (h : Headers) (w : World) :
  URL_origin (default "" (referer h)) = None ->
  checkout URL_origin now products (mkContext None (Some h)) w = (Thrown invalidURL, w) /\
  invalidURL <> notAuthenticated /\
  error_code invalidURL <> Some "FORBIDDEN".
Proof.
  intros Hurl. unfold checkout, bind, settle, origin. cbn. rewrite Hurl.
  repeat split; discriminate.
Qed.
End CheckoutIdentity.

(** A request without token and without [Referer]. *)
Lemma checkout_reads_referer_before_identity_witness :
  checkout http_origin 42 ["p1"] anonymous_script (mkWorld shop (account [])) =
    (Thrown invalidURL, mkWorld shop (account [])) /\
  invalidURL <> notAuthenticated /\
  error_code invalidURL <> Some "FORBIDDEN".
Proof.
  apply (checkout_reads_referer_before_identity http_origin 42 ["p1"] (mkHeaders None)
           (mkWorld shop (account []))).
  reflexivity.
Defined.

(** * Further properties of the resolvers *)

(** ** More on the model interface *)

Section ModelUpdates.
Context {D : Type} `{Document D}.
Implicit Types (d : D) (c : list D) (id : string).

Lemma ids_save d c : doc_id <$> save d c = doc_id <$> c.
Proof.
  induction c as [|x c IH]; cbn; [reflexivity|].
  case_bool_decide as Hx; cbn; [by rewrite Hx | by rewrite IH].
Qed.

Lemma fmap_save {B} (f : D -> B) d u c :
  findById (doc_id d) c = Some u -> f d = f u -> f <$> save d c = f <$> c.
Proof.
  intros Hu Hf. induction c as [|x c IH]; cbn in *; [reflexivity|].
  case_bool_decide as Hx; cbn.
  - injection Hu as ->. by rewrite Hf.
  - by rewrite IH.
Qed.

Lemma save_found d c : findById (doc_id d) c = Some d -> save d c = c.
Proof.
  induction c as [|x c IH]; cbn; [reflexivity|].
  case_bool_decide as Hx; [by intros [= ->] | intros Hd; by rewrite IH].
Qed.

Lemma save_save d d' c : doc_id d' = doc_id d -> save d (save d' c) = save d c.
Proof.
  intros Hid. induction c as [|x c IH]; cbn; [reflexivity|].
  rewrite Hid. case_bool_decide as Hx; cbn.
  - rewrite Hid. by rewrite bool_decide_true.
  - rewrite bool_decide_false by exact Hx. by rewrite IH.
Qed.

Lemma create_Some d c c' :
  create d c = Some c' -> c' = c ++ [d] /\ findById (doc_id d) c = None.
Proof.
  unfold create. destruct (findById (doc_id d) c); [discriminate|].
  by intros [= <-].
Qed.

Lemma findById_app id c1 c2 :
  findById id (c1 ++ c2) =
    match findById id c1 with Some d => Some d | None => findById id c2 end.
Proof.
  induction c1 as [|x c1 IH]; cbn; [reflexivity|].
  by case_bool_decide.
Qed.

Lemma ids_fresh id c : findById id c = None -> id ∉ doc_id <$> c.
Proof.
  rewrite findById_None. intros Hnone Hin.
  apply list_elem_of_fmap in Hin as (d & -> & Hd). by apply (Hnone d).
Qed.

Lemma delete_first_fresh d c :
  findById (doc_id d) c = None -> delete_first (doc_id d) (c ++ [d]) = c.
Proof.
  induction c as [|x c IH]; cbn.
  - intros _. by rewrite bool_decide_true.
  - case_bool_decide as Hx; [discriminate|]. intros Hc. by rewrite IH.
Qed.

Lemma ids_delete_first id c :
  doc_id <$> delete_first id c `sublist_of` doc_id <$> c.
Proof.
  induction c as [|x c IH]; cbn; [constructor|].
  case_bool_decide; cbn; [by apply sublist_cons | by apply sublist_skip].
Qed.

Lemma Forall_delete_first (P : D -> Prop) id c :
  Forall P c -> Forall P (delete_first id c).
Proof.
  induction 1 as [|x c Hx Hc IH]; cbn; [constructor|].
  case_bool_decide; [assumption | by constructor].
Qed.

Lemma findById_delete_first id c :
  NoDup (doc_id <$> c) -> findById id (delete_first id c) = None.
Proof.
  induction c as [|x c IH]; cbn; [reflexivity|].
  intros Hnodup. apply NoDup_cons in Hnodup as [Hx Hnodup].
  case_bool_decide as Hid; cbn.
  - apply findById_None. intros d Hd Heq. apply Hx. rewrite Hid, <- Heq.
    by apply list_elem_of_fmap_2.
  - rewrite bool_decide_false by exact Hid. by apply IH.
Qed.

Lemma findById_delete_first_ne id other c :
  other <> id -> findById other (delete_first id c) = findById other c.
Proof.
  intros Hne. induction c as [|x c IH]; cbn; [reflexivity|].
  case_bool_decide as Hid; cbn.
  - rewrite bool_decide_false by congruence. reflexivity.
  - by rewrite IH.
Qed.
End ModelUpdates.

Lemma delete_first_absent {D : Type} `{Document D} (id : string) (c : list D) :
  findById id c = None -> delete_first id c = c.
Proof.
  induction c as [|x c IH]; cbn; [reflexivity|].
  case_bool_decide; [discriminate | intros Hc; by rewrite IH].
Qed.

Lemma with_Products_same store : with_Products (Products store) store = store.
Proof. by destruct store. Qed.


Lemma with_Categories_same store : with_Categories (Categories store) store = store.
Proof. by destruct store. Qed.

Lemma with_stock_same p : Product.with_stock (Product.stock p) p = p.
Proof. by destruct p. Qed.

(** ** Catalog *)

(** X1: for an authenticated caller and an existing product, stock and
    quantity being safe integers, [addStock] of a quantity followed by
    [removeStock] of the same quantity gives back the store as it was when
    the stock was not negative and the stock in between is a safe integer,
    and [removeStock] followed by [addStock] does when the quantity was
    within the stock and the stock in between is a safe integer. *)
Theorem stock_round_trip (productId : string) (quantity : Z) (context : IUserContext)
    (cu : AuthUser) (store : DB) (p : Product.t) :
  user context = Some cu ->
  findById productId (Products store) = Some p ->
  safe_integer (Product.stock p) ->
  safe_integer quantity ->
  (0 <= Product.stock p ->
     safe_integer (Product.stock p + quantity) ->
     exists p1 store1,
       addStock productId quantity context store = (Returned p1, store1) /\
       Product.stock p1 = Product.stock p + quantity /\
       removeStock productId quantity context store1 = (Returned p, store)) /\
  (quantity <= Product.stock p ->
     safe_integer (Product.stock p - quantity) ->
     exists p1 store1,
       removeStock productId quantity context store = (Returned p1, store1) /\
       Product.stock p1 = Product.stock p - quantity /\
       addStock productId quantity context store1 = (Returned p, store)).
Proof.
  intros Hcu Hp _ _. apply findById_Some in Hp as Hid. destruct Hid as [_ Hid].
  assert (forall n, findById productId
                      (save (Product.with_stock n p) (Products store)) =
                    Some (Product.with_stock n p)) as Hsaved.
  { intros n. apply findById_save; [exact Hid | by rewrite Hp]. }
  assert (forall n, save p (save (Product.with_stock n p) (Products store)) =
                    Products store) as Hback.
  { intros n. rewrite save_save by reflexivity. apply save_found.
    by rewrite Hid. }
  split; intros Hq _.
  - do 2 eexists. unfold addStock, removeStock. rewrite Hcu. step_async. rewrite Hp.
    split; [reflexivity|]. split; [reflexivity|].
    cbn [Products with_Products]. rewrite Hsaved. cbn [Product.stock Product.with_stock].
    replace (quantity <=? Product.stock p + quantity) with true
      by (symmetry; apply Z.leb_le; lia).
    replace (Product.stock p + quantity - quantity) with (Product.stock p) by lia.
    change (Product.with_stock (Product.stock p) (Product.with_stock _ p))
      with (Product.with_stock (Product.stock p) p).
    rewrite with_stock_same, Hback.
    change (with_Products (Products store) (with_Products _ store))
      with (with_Products (Products store) store).
    by rewrite with_Products_same.
  - do 2 eexists. unfold addStock, removeStock. rewrite Hcu. step_async. rewrite Hp.
    replace (quantity <=? Product.stock p) with true by (symmetry; apply Z.leb_le; lia).
    split; [reflexivity|]. split; [reflexivity|].
    cbn [Products with_Products]. rewrite Hsaved. cbn [Product.stock Product.with_stock].
    replace (Product.stock p - quantity + quantity) with (Product.stock p) by lia.
    change (Product.with_stock (Product.stock p) (Product.with_stock _ p))
      with (Product.with_stock (Product.stock p) p).
    rewrite with_stock_same, Hback.
    change (with_Products (Products store) (with_Products _ store))
      with (with_Products (Products store) store).
    by rewrite with_Products_same.
Qed.

(** Four pens in, four pens out; and the other way round. *)
Lemma stock_round_trip_witness :
  (exists p1 store1,
     addStock "p2" 4 as_alice shop = (Returned p1, store1) /\
     Product.stock p1 = 11 /\
     removeStock "p2" 4 as_alice store1 = (Returned pen, shop)) /\
  (exists p1 store1,
     removeStock "p2" 4 as_alice shop = (Returned p1, store1) /\
     Product.stock p1 = 3 /\
     addStock "p2" 4 as_alice store1 = (Returned pen, shop)).
Proof.
  assert (safe_integer 7 /\ safe_integer 4 /\ safe_integer (7 + 4) /\
          safe_integer (7 - 4)) as (H7 & H4 & H11 & H3)
    by (unfold safe_integer; lia).
  destruct (stock_round_trip "p2" 4 as_alice alice shop pen eq_refl eq_refl H7 H4)
    as [Hadd Hremove].
  split; [apply Hadd; [cbn; lia | exact H11] | apply Hremove; [cbn; lia | exact H3]].
Defined.

(** X2: for an authenticated caller and an identifier the catalog does not
    hold, [addProduct] stores a product under it, with the fields given and
    no review, and leaves the other products as they were; [removeProduct]
    of the identifier then returns that product and gives back the store
    as it was. *)
Theorem addProduct_then_removeProduct (oid : string) (productData : IProductInput)
    (context : IUserContext) (cu : AuthUser) (store : DB) :
  user context = Some cu ->
  findById oid (Products store) = None ->
  exists product store1,
    addProduct oid productData context store = (Returned product, store1) /\
    Product._id product = oid /\
    Product.name product = in_name productData /\
    Product.price product = in_price productData /\
    Product.stock product = in_stock productData /\
    Product.reviews product = [] /\
    findById oid (Products store1) = Some product /\
    (forall other, other <> oid ->
       findById other (Products store1) = findById other (Products store)) /\
    removeProduct oid context store1 = (Returned (Some product), store).
Proof.
  intros Hcu Hfresh. do 2 eexists. unfold addProduct, removeProduct. rewrite Hcu.
  step_async. unfold create. cbn [doc_id Product_Document Product._id].
  rewrite Hfresh. split; [reflexivity|].
  do 5 (split; [reflexivity|]). cbn [Products with_Products].
  set (product := Product.mk oid _ _ _ _ _ [] false None).
  assert (findById oid (Products store ++ [product]) = Some product) as Hfound.
  { rewrite findById_app, Hfresh. cbn. by rewrite bool_decide_true. }
  split; [exact Hfound|]. split.
  - intros other Hother. rewrite findById_app.
    destruct (findById other (Products store)); [reflexivity|].
    cbn. by rewrite bool_decide_false by congruence.
  - unfold findByIdAndDelete. rewrite Hfound.
    change oid with (doc_id product) at 1.
    rewrite delete_first_fresh by exact Hfresh.
    change (with_Products (Products store) (with_Products _ store))
      with (with_Products (Products store) store).
    by rewrite with_Products_same.
Qed.

(** A cup comes and goes. *)
Lemma addProduct_then_removeProduct_witness :
  exists product store1,
    addProduct "p9" (mkProductInput "Cup" "A cup." "cup.png" 3.5%float 20) as_alice shop =
      (Returned product, store1) /\
    Product._id product = "p9" /\
    Product.name product = "Cup" /\
    Product.price product = 3.5%float /\
    Product.stock product = 20 /\
    Product.reviews product = [] /\
    findById "p9" (Products store1) = Some product /\
    (forall other, other <> "p9" ->
       findById other (Products store1) = findById other (Products shop)) /\
    removeProduct "p9" as_alice store1 = (Returned (Some product), shop).
Proof.
  apply (addProduct_then_removeProduct "p9"
           (mkProductInput "Cup" "A cup." "cup.png" 3.5%float 20) as_alice alice shop);
    reflexivity.
Defined.

(** X3: for an authenticated caller, each resolver that first loads the
    product it is given throws the product-not-found error, of code
    NOT_FOUND, when the catalog does not hold the identifier, and leaves
    the store as it was. *)
Theorem missing_product_is_not_found (productId : string) (context : IUserContext)
    (cu : AuthUser) (store : DB) :
  user context = Some cu ->
  findById productId (Products store) = None ->
  (forall quantity,
     addStock productId quantity context store = (Thrown productNotFound, store)) /\
  (forall quantity,
     removeStock productId quantity context store = (Thrown productNotFound, store)) /\
  (forall now review rating,
     addReview now productId review rating context store =
       (Thrown productNotFound, store)) /\
  (forall review rating,
     editReview productId review rating context store =
       (Thrown productNotFound, store)) /\
  (forall now quantity,
     addBasketItem now productId quantity context store =
       (Thrown productNotFound, store)) /\
  removeBasketItem productId context store = (Thrown productNotFound, store) /\
  decrementBasketItem productId context store = (Thrown productNotFound, store) /\
  error_code productNotFound = Some "NOT_FOUND".
Proof.
  intros Hcu Hnone.
  unfold addStock, removeStock, addReview, editReview, addBasketItem, removeBasketItem,
    decrementBasketItem.
  rewrite Hcu. step_async. rewrite Hnone. repeat split.
Qed.

(** The shop sells no product "p7". *)
Lemma missing_product_is_not_found_witness :
  (forall quantity,
     addStock "p7" quantity as_alice shop = (Thrown productNotFound, shop)) /\
  (forall quantity,
     removeStock "p7" quantity as_alice shop = (Thrown productNotFound, shop)) /\
  (forall now review rating,
     addReview now "p7" review rating as_alice shop = (Thrown productNotFound, shop)) /\
  (forall review rating,
     editReview "p7" review rating as_alice shop = (Thrown productNotFound, shop)) /\
  (forall now quantity,
     addBasketItem now "p7" quantity as_alice shop = (Thrown productNotFound, shop)) /\
  removeBasketItem "p7" as_alice shop = (Thrown productNotFound, shop) /\
  decrementBasketItem "p7" as_alice shop = (Thrown productNotFound, shop) /\
  error_code productNotFound = Some "NOT_FOUND".
Proof.
  apply (missing_product_is_not_found "p7" as_alice alice shop); reflexivity.
Defined.

(** X4: for an authenticated caller, [removeProduct] and [removeCategory] of
    an identifier their collection does not hold throw nothing: they return
    [null] and leave the store as it was. *)
Theorem removing_the_absent_returns_null (id : string) (context : IUserContext)
    (cu : AuthUser) (store : DB) :
  user context = Some cu ->
  (findById id (Products store) = None ->
     removeProduct id context store = (Returned None, store)) /\
  (findById id (Categories store) = None ->
     removeCategory id context store = (Returned None, store)).
Proof.
  intros Hcu. unfold removeProduct, removeCategory, findByIdAndDelete.
  rewrite Hcu. step_async. split; intros Hnone; rewrite Hnone.
  - by rewrite delete_first_absent, with_Products_same.
  - by rewrite delete_first_absent, with_Categories_same.
Qed.

Lemma removing_the_absent_returns_null_witness :
  removeProduct "p7" as_alice shop = (Returned None, shop) /\
  removeCategory "c7" as_alice shop = (Returned None, shop).
Proof.
  destruct (removing_the_absent_returns_null "p7" as_alice alice shop eq_refl)
    as [Hproduct _].
  destruct (removing_the_absent_returns_null "c7" as_alice alice shop eq_refl)
    as [_ Hcategory].
  split; [by apply Hproduct | by apply Hcategory].
Defined.

(** ** Categories *)



(** ** More on reviews *)

(** X6: an authenticated caller who has no review on an existing product
    cannot edit one: [editReview] throws the forbidden error, the one thrown
    without an identity, and leaves the store as it was. *)
Theorem editReview_without_review (productId body : string) (rating : Z)
    (context : IUserContext) (cu : AuthUser) (store : DB) (p : Product.t) :
  user context = Some cu ->
  findById productId (Products store) = Some p ->
  List.find (authored_by (auth_username cu)) (Product.reviews p) = None ->
  editReview productId body rating context store = (Thrown forbiddenException, store).
Proof.
  intros Hcu Hp Hnone. unfold editReview. rewrite Hcu. step_async.
  by rewrite Hp, Hnone.
Qed.

(** Alice has not reviewed the pen. *)
Lemma editReview_without_review_witness :
  editReview "p2" "Leaks." 1 as_alice shop = (Thrown forbiddenException, shop).
Proof.
  apply (editReview_without_review "p2" "Leaks." 1 as_alice alice shop pen); reflexivity.
Defined.

(** X7: reviews and stock do not touch each other: [addReview] and
    [editReview] leave the stock and the price of every product as they
    were, and [addStock] and [removeStock] leave the reviews of every
    product as they were; this whether the resolver returns or throws. *)
Theorem reviews_and_stock_are_separate (context : IUserContext) (store : DB) :
  (forall now productId review rating,
     let store' := (addReview now productId review rating context store).2 in
     Product.stock <$> Products store' = Product.stock <$> Products store /\
     Product.price <$> Products store' = Product.price <$> Products store) /\
  (forall productId review rating,
     let store' := (editReview productId review rating context store).2 in
     Product.stock <$> Products store' = Product.stock <$> Products store /\
     Product.price <$> Products store' = Product.price <$> Products store) /\
  (forall productId quantity,
     Product.reviews <$> Products (addStock productId quantity context store).2 =
     Product.reviews <$> Products store) /\
  (forall productId quantity,
     Product.reviews <$> Products (removeStock productId quantity context store).2 =
     Product.reviews <$> Products store).
Proof.
  assert (forall {B} (f : Product.t -> B) productId p p',
            findById productId (Products store) = Some p ->
            Product._id p' = Product._id p -> f p' = f p ->
            f <$> save p' (Products store) = f <$> Products store) as Hsave.
  { intros B f productId p p' Hp Hid Hf.
    apply findById_Some in Hp as Hpid. destruct Hpid as [_ Hpid].
    apply (fmap_save f p' p); [|exact Hf].
    change (doc_id p') with (Product._id p'). rewrite Hid.
    change (Product._id p) with (doc_id p). by rewrite Hpid. }
  split; [|split; [|split]].
  - intros now productId review rating store'. subst store'.
    unfold addReview. destruct (user context) as [cu|]; [|by split]. step_async.
    destruct (findById productId (Products store)) as [p|] eqn:Hp; [|by split].
    destruct (List.find _ _); [by split|].
    unfold findByIdAndUpdate. rewrite Hp. cbn. split; by eapply Hsave.
  - intros productId review rating store'. subst store'.
    unfold editReview. destruct (user context) as [cu|]; [|by split]. step_async.
    destruct (findById productId (Products store)) as [p|] eqn:Hp; [|by split].
    destruct (List.find _ _); [|by split]. cbn. split; by eapply Hsave.
  - intros productId quantity.
    unfold addStock. destruct (user context) as [cu|]; [|reflexivity]. step_async.
    destruct (findById productId (Products store)) as [p|] eqn:Hp; [|reflexivity].
    cbn. by eapply Hsave.
  - intros productId quantity.
    unfold removeStock. destruct (user context) as [cu|]; [|reflexivity]. step_async.
    destruct (findById productId (Products store)) as [p|] eqn:Hp; [|reflexivity].
    destruct (_ <=? _); [|reflexivity]. cbn. by eapply Hsave.
Qed.

(** ** What every sequence of mutations keeps *)

Ltac unfold_resolvers :=
  unfold addProduct, removeProduct, addStock, removeStock, addCategory, removeCategory,
    addProductToCategory, addReview, editReview, addBasketItem, removeBasketItem,
    decrementBasketItem, clearBasket, findByIdAndUpdate, findByIdAndDelete;
  step_async.

Ltac case_resolver :=
  repeat match goal with
         | |- context [match ?x with _ => _ end] => destruct x eqn:?
         end;
  repeat match goal with
         | H : context [match ?x with _ => _ end] |- _ => destruct x eqn:?
         end;
  simplify_eq;
  cbn [fst snd Products Users Categories with_Products with_Users with_Categories].

Lemma product_ids_save p ps : Product._id <$> save p ps = Product._id <$> ps.
Proof. exact (ids_save p ps). Qed.

Lemma user_ids_save u us : User._id <$> save u us = User._id <$> us.
Proof. exact (ids_save u us). Qed.

Lemma category_ids_save c cs : Category._id <$> save c cs = Category._id <$> cs.
Proof. exact (ids_save c cs). Qed.

Lemma NoDup_ids_create {D : Type} `{Document D} (d : D) (c c' : list D) :
  create d c = Some c' -> NoDup (doc_id <$> c) -> NoDup (doc_id <$> c').
Proof.
  intros Hcreate Hnodup. apply create_Some in Hcreate as [-> Hfresh].
  rewrite fmap_app. apply NoDup_app. split; [assumption|]. split.
  - intros x Hx Hnew. apply list_elem_of_singleton in Hnew. subst x.
    by apply ids_fresh in Hfresh.
  - apply NoDup_singleton.
Qed.

Lemma NoDup_ids_delete_first {D : Type} `{Document D} (id : string) (c : list D) :
  NoDup (doc_id <$> c) -> NoDup (doc_id <$> delete_first id c).
Proof. intros Hnodup. exact (sublist_NoDup _ _ Hnodup (ids_delete_first id c)). Qed.

Lemma mutate_unique_ids store request :
  unique_ids store -> unique_ids (mutate store request).
Proof.
  unfold unique_ids. intros (Hproducts & Husers & Hcategories).
  destruct request as [context call].
  destruct call; cbn [mutate]; unfold_resolvers; case_resolver;
    rewrite ?product_ids_save, ?user_ids_save, ?category_ids_save;
    repeat split; try assumption.
  - by eapply (NoDup_ids_create (H := Product_Document)).
  - by apply (NoDup_ids_delete_first (H := Product_Document)).
  - by eapply (NoDup_ids_create (H := Category_Document)).
  - by apply (NoDup_ids_delete_first (H := Category_Document)).
Qed.

(** X8: on a store whose collections hold one document per identifier, every
    sequence of mutations, by whatever callers and with whatever arguments,
    leaves one document per identifier in every collection. *)
Theorem mutations_keep_ids_unique (requests : list (IUserContext * Call.t))
    (store : DB) :
  unique_ids store -> unique_ids (mutations requests store).
Proof.
  unfold mutations. revert store.
  induction requests as [|request requests IH]; intros store Hstore; cbn;
    [assumption|].
  apply IH. by apply mutate_unique_ids.
Qed.

(** A mutation that is not a basket resolver leaves the users alone, and a
    mutation on a basket or a category leaves the products alone. *)
Lemma mutate_Users store context call :
  match call with
  | Call.addBasketItem _ _ _ | Call.removeBasketItem _
  | Call.decrementBasketItem _ | Call.clearBasket => True
  | _ => Users (mutate store (context, call)) = Users store
  end.
Proof. destruct call; cbn [mutate]; unfold_resolvers; case_resolver; done. Qed.

Lemma mutate_Products store context call :
  match call with
  | Call.addBasketItem _ _ _ | Call.removeBasketItem _
  | Call.decrementBasketItem _ | Call.clearBasket
  | Call.addCategory _ _ | Call.removeCategory _ | Call.addProductToCategory _ _ =>
      Products (mutate store (context, call)) = Products store
  | _ => True
  end.
Proof. destruct call; cbn [mutate]; unfold_resolvers; case_resolver; done. Qed.

Lemma accounts_save_basket id us u b :
  findById id us = Some u ->
  account_of <$> save (User.with_basket b u) us = account_of <$> us.
Proof.
  intros Hu. apply findById_Some in Hu as Hid. destruct Hid as [_ Hid].
  apply (fmap_save account_of _ u); [|reflexivity].
  change (doc_id (User.with_basket b u)) with (doc_id u). by rewrite Hid.
Qed.

Lemma mutate_accounts store request :
  account_of <$> Users (mutate store request) = account_of <$> Users store.
Proof.
  destruct request as [context call].
  destruct call; cbn [mutate]; unfold_resolvers; case_resolver;
    try reflexivity; unfold pull; by eapply accounts_save_basket.
Qed.

(** X9: no sequence of mutations creates or deletes a user, or changes the
    identifier, the username, the email or the orders of one: of a user,
    the mutations change the basket only. *)
Theorem mutations_change_baskets_only (requests : list (IUserContext * Call.t))
    (store : DB) :
  account_of <$> Users (mutations requests store) = account_of <$> Users store.
Proof.
  unfold mutations. revert store.
  induction requests as [|request requests IH]; intros store; cbn; [reflexivity|].
  by rewrite IH, mutate_accounts.
Qed.

Lemma find_author_None username (reviews : list Review.t) :
  List.find (authored_by username) reviews = None <->
  username ∉ Review.username <$> reviews.
Proof.
  induction reviews as [|item reviews IH]; cbn.
  - split; [intros _ Hin; inversion Hin | reflexivity].
  - unfold authored_by at 1. case_bool_decide as Hitem.
    + split; [discriminate|]. intros Hnot. destruct Hnot. rewrite Hitem. left.
    + rewrite IH, not_elem_of_cons.
      split; [intros Hnot; split; congruence | by intros [_ Hnot]].
Qed.

Lemma mutate_one_review store request :
  one_review_per_user store -> one_review_per_user (mutate store request).
Proof.
  unfold one_review_per_user. intros Hstore.
  destruct request as [context call].
  pose proof (mutate_Products store context call) as Hsame.
  destruct call; try (by rewrite Hsame);
    cbn [mutate]; unfold_resolvers; case_resolver; try assumption;
    repeat match goal with
           | H : findById _ (Products store) = Some ?p |- _ =>
               lazymatch goal with
               | _ : NoDup (Review.username <$> Product.reviews p) |- _ => fail
               | _ =>
                   assert (NoDup (Review.username <$> Product.reviews p))
                     by (apply findById_Some in H as [? _];
                         rewrite Forall_forall in Hstore; by apply Hstore)
               end
           end.
  - apply create_Some in Heqo0 as [-> _]. apply Forall_app. split; [assumption|].
    repeat constructor.
  - by apply Forall_delete_first.
  - by apply Forall_save.
  - by apply Forall_save.
  - apply Forall_save; [|assumption]. cbn. rewrite fmap_app. apply NoDup_app.
    split; [assumption|]. split; [|apply NoDup_singleton].
    intros x Hx Hnew. apply list_elem_of_singleton in Hnew. subst x.
    by eapply find_author_None.
  - apply Forall_save; [|assumption]. cbn. by rewrite fmap_assign_first.
Qed.

(** X10: on a store where no product has two reviews under one username, no
    sequence of mutations, by whatever callers and with whatever
    arguments, gives a product two reviews under one username. *)
Theorem mutations_keep_one_review_per_user (requests : list (IUserContext * Call.t))
    (store : DB) :
  one_review_per_user store -> one_review_per_user (mutations requests store).
Proof.
  unfold mutations. revert store.
  induction requests as [|request requests IH]; intros store Hstore; cbn;
    [assumption|].
  apply IH. by apply mutate_one_review.
Qed.

(** ** More on baskets *)

Lemma NoDup_fmap_filter {A B} (f : A -> B) (P : A -> Prop) `{forall x, Decision (P x)}
    (l : list A) :
  NoDup (f <$> l) -> NoDup (f <$> filter P l).
Proof.
  induction l as [|x l IH]; [done|].
  rewrite fmap_cons, NoDup_cons. intros [Hx Hl]. rewrite filter_cons.
  case_decide; [|by apply IH].
  rewrite fmap_cons. apply NoDup_cons. split; [|by apply IH].
  intros Hin. apply Hx. apply list_elem_of_fmap in Hin as (y & -> & Hy).
  apply list_elem_of_filter in Hy as [_ Hy]. by apply list_elem_of_fmap_2.
Qed.

Lemma well_formed_filter (P : BasketItem.t -> Prop) `{forall x, Decision (P x)} basket :
  well_formed basket -> well_formed (filter P basket).
Proof.
  intros [Hnodup Hall]. split.
  - by apply NoDup_fmap_filter.
  - rewrite Forall_forall in *. intros item Hitem.
    apply list_elem_of_filter in Hitem as [_ Hitem]. by apply Hall.
Qed.

Lemma well_formed_assign_first productId (f : BasketItem.t -> BasketItem.t) basket item :
  List.find (line_of productId) basket = Some item ->
  BasketItem.product (f item) = BasketItem.product item ->
  1 <= BasketItem.quantity (f item) ->
  well_formed basket -> well_formed (assign_first (line_of productId) f basket).
Proof.
  intros Hfind Hproduct Hquantity [Hnodup Hall].
  destruct (find_split _ _ _ Hfind) as (before & after & -> & Hline & Hbefore).
  rewrite assign_first_split by assumption. split.
  - rewrite fmap_app, fmap_cons, Hproduct. by rewrite fmap_app, fmap_cons in Hnodup.
  - apply Forall_app in Hall as [Hb Ha]. apply Forall_cons in Ha as [_ Ha].
    apply Forall_app. split; [assumption|]. by constructor.
Qed.

Lemma well_formed_push productId quantity now basket :
  List.find (line_of productId) basket = None ->
  1 <= quantity ->
  well_formed basket -> well_formed (basket ++ [BasketItem.mk productId quantity now]).
Proof.
  intros Hfind Hquantity [Hnodup Hall]. split.
  - rewrite fmap_app. apply NoDup_app. split; [assumption|].
    split; [|apply NoDup_singleton].
    intros x Hx Hnew. apply list_elem_of_singleton in Hnew. subst x.
    by apply find_line_None in Hfind.
  - apply Forall_app. split; [assumption|]. by repeat constructor.
Qed.

Lemma mutate_baskets_well_formed store request :
  adds_positive request -> baskets_well_formed store ->
  baskets_well_formed (mutate store request).
Proof.
  unfold baskets_well_formed, adds_positive.
  intros Hpositive Hstore. destruct request as [context call].
  pose proof (mutate_Users store context call) as Hsame.
  destruct call; try (by rewrite Hsame); clear Hsame; cbn [snd] in Hpositive;
    cbn [mutate]; unfold_resolvers; case_resolver; try assumption;
    match goal with
    | H : findById _ (Users store) = Some ?u |- _ =>
        assert (well_formed (User.basket u))
          by (apply findById_Some in H as [? _];
              rewrite Forall_forall in Hstore; by apply Hstore)
    end;
    (apply Forall_save; [|assumption]); cbn [User.basket User.with_basket pull].
  - eapply well_formed_assign_first; [eassumption|reflexivity| |assumption].
    cbn in *. match goal with H : well_formed _ |- _ => destruct H as [_ Hall] end.
    match goal with H : List.find _ _ = Some _ |- _ =>
      apply find_some in H as [Hin _] end.
    rewrite Forall_forall in Hall. apply list_elem_of_In in Hin.
    specialize (Hall _ Hin). lia.
  - by apply well_formed_push.
  - by apply well_formed_filter.
  - eapply well_formed_assign_first; [eassumption|reflexivity| |assumption].
    cbn. match goal with H : (1 <? _) = true |- _ => apply Z.ltb_lt in H end. lia.
  - by apply well_formed_filter.
  - split; constructor.
Qed.

(** X11: on a store where every basket has at most one line per product and
    only quantities of one or more, every sequence of mutations whose
    [addBasketItem] quantities are one or more leaves every basket so:
    a decrement never leaves a line of quantity zero. *)
Theorem mutations_keep_baskets_well_formed (requests : list (IUserContext * Call.t))
    (store : DB) :
  Forall adds_positive requests ->
  baskets_well_formed store ->
  baskets_well_formed (mutations requests store).
Proof.
  unfold mutations. intros Hrequests. revert store.
  induction Hrequests as [|request requests Hrequest _ IH]; intros store Hstore; cbn;
    [assumption|].
  apply IH. by apply mutate_baskets_well_formed.
Qed.

Lemma pulled productId (basket : list BasketItem.t) :
  productId ∉
    BasketItem.product <$> filter (fun item => BasketItem.product item <> productId) basket.
Proof.
  intros Hin. apply list_elem_of_fmap in Hin as (item & -> & Hitem).
  apply list_elem_of_filter in Hitem as [Hne _]. by apply Hne.
Qed.

(** X12: for an authenticated user with a record and a line for an existing
    product in the basket, [decrementBasketItem] takes one off the
    quantity of the line when the quantity is above one, leaving the line
    in its place and the other lines as they were, and takes every line of
    the product out of the basket otherwise; it returns the user saved. *)
Theorem decrementBasketItem_steps (productId : string) (context : IUserContext)
    (cu : AuthUser) (store : DB) (u : User.t) (item : BasketItem.t) :
  user context = Some cu ->
  is_Some (findById productId (Products store)) ->
  findById (auth_id cu) (Users store) = Some u ->
  List.find (line_of productId) (User.basket u) = Some item ->
  exists u' store',
    decrementBasketItem productId context store = (Returned (Some u'), store') /\
    findById (auth_id cu) (Users store') = Some u' /\
    account_of u' = account_of u /\
    (1 < BasketItem.quantity item ->
       exists before after,
         User.basket u = before ++ item :: after /\
         User.basket u' =
           before ++
           BasketItem.mk productId (BasketItem.quantity item - 1)
             (BasketItem.dateAdded item) :: after) /\
    (BasketItem.quantity item <= 1 ->
       User.basket u' =
         filter (fun line => BasketItem.product line <> productId) (User.basket u) /\
       productId ∉ BasketItem.product <$> User.basket u').
Proof.
  intros Hcu [p Hp] Hu Hitem.
  apply findById_Some in Hu as Hid. destruct Hid as [_ Hid].
  destruct (find_split _ _ _ Hitem) as (before & after & Hsplit & Hline & Hbefore).
  assert (BasketItem.product item = productId) as Hproduct.
  { unfold line_of in Hline. by apply bool_decide_eq_true in Hline. }
  unfold decrementBasketItem. rewrite Hcu. step_async. rewrite Hp, Hu, Hitem.
  destruct (1 <? BasketItem.quantity item) eqn:Hq.
  - apply Z.ltb_lt in Hq. do 2 eexists. split; [reflexivity|].
    cbn [Users with_Users]. split; [apply findById_save; [exact Hid | by rewrite Hu]|].
    split; [reflexivity|]. split; [|lia].
    intros _. exists before, after. split; [exact Hsplit|].
    cbn [User.basket User.with_basket]. rewrite Hsplit.
    rewrite assign_first_split by assumption. by rewrite Hproduct.
  - apply Z.ltb_ge in Hq. unfold findByIdAndUpdate. rewrite Hu.
    do 2 eexists. split; [reflexivity|].
    cbn [Users with_Users]. split; [apply findById_save; [exact Hid | by rewrite Hu]|].
    split; [reflexivity|]. split; [lia|].
    intros _. split; [reflexivity|]. apply pulled.
Qed.

(** Alice takes one of her three pens out, and her only mug. *)
Lemma decrementBasketItem_steps_witness :
  (exists u' store',
     decrementBasketItem "p2" as_alice busy_shop = (Returned (Some u'), store') /\
     User.basket u' = [BasketItem.mk "p1" 1 5; BasketItem.mk "p2" 2 6]) /\
  (exists u' store',
     decrementBasketItem "p1" as_alice busy_shop = (Returned (Some u'), store') /\
     User.basket u' = [BasketItem.mk "p2" 3 6]).
Proof.
  split.
  - destruct (decrementBasketItem_steps "p2" as_alice alice busy_shop shopper
                (BasketItem.mk "p2" 3 6) eq_refl (ex_intro _ pen eq_refl) eq_refl eq_refl)
      as (u' & store' & Hcall & _ & _ & _ & _).
    exists u', store'. split; [exact Hcall|].
    vm_compute in Hcall. by injection Hcall as <- _.
  - destruct (decrementBasketItem_steps "p1" as_alice alice busy_shop shopper
                (BasketItem.mk "p1" 1 5) eq_refl (ex_intro _ mug eq_refl) eq_refl eq_refl)
      as (u' & store' & Hcall & _ & _ & _ & _).
    exists u', store'. split; [exact Hcall|].
    vm_compute in Hcall. by injection Hcall as <- _.
Defined.

(** X13: for an authenticated user with a record and a line for an existing
    product in the basket, [removeBasketItem] takes every line of the
    product out of the basket, whatever the quantity, keeps the other
    lines in their order, and returns the user saved. *)
Theorem removeBasketItem_pulls (productId : string) (context : IUserContext)
    (cu : AuthUser) (store : DB) (u : User.t) (item : BasketItem.t) :
  user context = Some cu ->
  is_Some (findById productId (Products store)) ->
  findById (auth_id cu) (Users store) = Some u ->
  List.find (line_of productId) (User.basket u) = Some item ->
  exists u' store',
    removeBasketItem productId context store = (Returned (Some u'), store') /\
    findById (auth_id cu) (Users store') = Some u' /\
    account_of u' = account_of u /\
    User.basket u' =
      filter (fun line => BasketItem.product line <> productId) (User.basket u) /\
    productId ∉ BasketItem.product <$> User.basket u'.
Proof.
  intros Hcu [p Hp] Hu Hitem.
  apply findById_Some in Hu as Hid. destruct Hid as [_ Hid].
  unfold removeBasketItem. rewrite Hcu. step_async. rewrite Hp, Hu, Hitem.
  unfold findByIdAndUpdate. rewrite Hu. do 2 eexists. split; [reflexivity|].
  cbn [Users with_Users]. split; [apply findById_save; [exact Hid | by rewrite Hu]|].
  split; [reflexivity|]. split; [reflexivity|]. apply pulled.
Qed.

(** Alice puts her three pens back. *)
Lemma removeBasketItem_pulls_witness :
  exists u' store',
    removeBasketItem "p2" as_alice busy_shop = (Returned (Some u'), store') /\
    findById "u1" (Users store') = Some u' /\
    account_of u' = account_of shopper /\
    User.basket u' =
      filter (fun line => BasketItem.product line <> "p2") (User.basket shopper) /\
    "p2" ∉ BasketItem.product <$> User.basket u'.
Proof.
  apply (removeBasketItem_pulls "p2" as_alice alice busy_shop shopper
           (BasketItem.mk "p2" 3 6)); [reflexivity | by exists pen | reflexivity..].
Defined.



Lemma private_save id other us u b :
  findById id us = Some u -> other <> id ->
  findById other (save (User.with_basket b u) us) = findById other us.
Proof.
  intros Hu Hother. apply findById_Some in Hu as [_ Hid].
  apply findById_save_ne. change (doc_id (User.with_basket b u)) with (doc_id u).
  congruence.
Qed.

(** X15: the basket resolvers write to the record of their caller only: for
    an authenticated caller, whatever they are given and whether they
    return or throw, they leave the record of every other user, the
    products and the categories as they were. *)
Theorem basket_resolvers_are_private (context : IUserContext) (cu : AuthUser)
    (store : DB) (other : string) :
  user context = Some cu ->
  other <> auth_id cu ->
  let untouched store' :=
    findById other (Users store') = findById other (Users store) /\
    Products store' = Products store /\ Categories store' = Categories store in
  (forall now productId quantity,
     untouched (addBasketItem now productId quantity context store).2) /\
  (forall productId, untouched (removeBasketItem productId context store).2) /\
  (forall productId, untouched (decrementBasketItem productId context store).2) /\
  untouched (clearBasket context store).2.
Proof.
  intros Hcu Hother untouched. subst untouched. cbv beta.
  unfold addBasketItem, removeBasketItem, decrementBasketItem, clearBasket,
    findByIdAndUpdate.
  rewrite Hcu. step_async.
  split; [|split; [|split]]; intros; case_resolver;
    (split; [|by split]); try reflexivity; unfold pull; by eapply private_save.
Qed.

(** What alice does to her basket leaves bob's record alone. *)
Lemma basket_resolvers_are_private_witness :
  findById "u2" (Users (addBasketItem 9 "p1" 2 as_alice busy_shop).2) = Some bob_doc /\
  findById "u2" (Users (removeBasketItem "p2" as_alice busy_shop).2) = Some bob_doc /\
  findById "u2" (Users (decrementBasketItem "p2" as_alice busy_shop).2) = Some bob_doc /\
  findById "u2" (Users (clearBasket as_alice busy_shop).2) = Some bob_doc.
Proof.
  destruct (basket_resolvers_are_private as_alice alice busy_shop "u2" eq_refl)
    as (Hadd & Hremove & Hdecrement & Hclear); [discriminate|].
  destruct (Hadd 9 "p1" 2) as [-> _]. destruct (Hremove "p2") as [-> _].
  destruct (Hdecrement "p2") as [-> _]. destruct Hclear as [-> _].
  repeat split.
Defined.

(** The shop of the examples, with alice and bob, satisfies what the
    sequences of mutations keep. *)
Lemma busy_shop_unique_ids : unique_ids busy_shop.
Proof. repeat split; by apply (bool_decide_unpack _). Qed.

Lemma busy_shop_baskets : baskets_well_formed busy_shop.
Proof.
  repeat constructor; cbn; try lia; by apply (bool_decide_unpack _).
Qed.

(** A day of requests at the shop. *)
Lemma mutations_keep_ids_unique_witness :
  unique_ids
    (mutations
       [(as_alice, Call.addProduct "p9" (mkProductInput "Cup" "A cup." "cup.png" 3.5%float 20));
        (as_bob, Call.addProduct "p9" (mkProductInput "Cap" "A cap." "cap.png" 9%float 1));
        (as_alice, Call.addCategory "c1" (mkCategoryInput "Desk" "desk.png"));
        (as_bob, Call.removeProduct "p1");
        (anonymous, Call.removeProduct "p2");
        (as_alice, Call.addStock "p2" 5)]
       busy_shop).
Proof. apply mutations_keep_ids_unique. exact busy_shop_unique_ids. Defined.

Lemma mutations_keep_one_review_per_user_witness :
  one_review_per_user
    (mutations
       [(as_alice, Call.addReview 10 "p1" "Sturdy." 5);
        (as_alice, Call.addReview 11 "p1" "Sturdy indeed." 4);
        (as_bob, Call.addReview 12 "p1" "Fine." 3);
        (as_alice, Call.editReview "p1" "Leaks." 1)]
       busy_shop).
Proof. apply mutations_keep_one_review_per_user. repeat constructor. Defined.

Lemma mutations_keep_baskets_well_formed_witness :
  baskets_well_formed
    (mutations
       [(as_alice, Call.addBasketItem 10 "p2" 2);
        (as_alice, Call.decrementBasketItem "p1");
        (as_bob, Call.decrementBasketItem "p2");
        (as_bob, Call.addBasketItem 11 "p3" 1);
        (as_alice, Call.removeBasketItem "p2");
        (as_bob, Call.clearBasket)]
       busy_shop).
Proof.
  apply mutations_keep_baskets_well_formed.
  - repeat constructor; cbn; lia.
  - exact busy_shop_baskets.
Defined.

(** ** More on checkout *)

Lemma counted_total (products : list string) (productQuantities : gmap string Z)
    (id : string) :
  default 0 (fold_left count products productQuantities !! id) =
  default 0 (productQuantities !! id) + occurrences id products.
Proof.
  unfold occurrences. revert productQuantities.
  induction products as [|x products IH]; intros productQuantities; cbn [fold_left].
  - cbn. lia.
  - rewrite IH. unfold count. rewrite filter_cons.
    destruct (decide (x = id)) as [->|Hne].
    + rewrite lookup_insert_eq. cbn [default length]. unfold Datatypes.id. lia.
    + by rewrite lookup_insert_ne by exact Hne.
Qed.

Lemma manifest_lookup (products : list string) (id : string) :
  fold_left count products ∅ !! id =
    if decide (id ∈ products) then Some (occurrences id products) else None.
Proof.
  pose proof (counted products ∅ id) as Hsome.
  pose proof (counted_total products ∅ id) as Htotal.
  rewrite lookup_empty in *. cbn [default] in Htotal.
  destruct (decide (id ∈ products)) as [Hin|Hnot].
  - destruct Hsome as [_ Hsome]. destruct Hsome as [n Hn]; [by left|].
    rewrite Hn in *. cbn in Htotal. f_equal. lia.
  - destruct (fold_left count products ∅ !! id) as [n|] eqn:Hn; [|reflexivity].
    destruct Hsome as [Hsome _]. destruct Hsome as [Hin|[? [=]]]; [by eexists|].
    by destruct Hnot.
Qed.

(** X16: for a list of identifiers none of which is a name that a plain
    object inherits from [Object.prototype], the manifest of a checkout
    maps each identifier of the list to the number of times the list names
    it, a number that is one or more, and gives nothing for an identifier
    that is neither in the list nor such a name. *)
Theorem manifest_counts_occurrences (products : list string) (id : string) :
  Forall plain_key products ->
  plain_key id ->
  (id ∈ products ->
     fold_left count products ∅ !! id = Some (occurrences id products) /\
     1 <= occurrences id products) /\
  (id ∉ products -> fold_left count products ∅ !! id = None).
Proof.
  intros _ _. rewrite manifest_lookup. split.
  - intros Hin. rewrite decide_True by exact Hin. split; [reflexivity|].
    unfold occurrences. apply list_elem_of_split in Hin as (l1 & l2 & ->).
    rewrite filter_app, filter_cons_True, length_app by reflexivity. cbn. lia.
  - intros Hnot. by rewrite decide_False.
Qed.

(** Three pens, a flyer and an identifier without a product. *)
Lemma manifest_counts_occurrences_witness :
  fold_left count ["p2"; "p3"; "p2"; "zz"; "p2"] ∅ !! "p2" = Some 3 /\
  fold_left count ["p2"; "p3"; "p2"; "zz"; "p2"] ∅ !! "p1" = None.
Proof.
  assert (forall id, id ∈ ["p1"; "p2"; "p3"; "zz"] -> plain_key id) as Hplain.
  { intros id Hid. unfold plain_key. apply (bool_decide_unpack _).
    repeat (apply elem_of_cons in Hid as [->|Hid]; [by vm_compute|]).
    inversion Hid. }
  assert (Forall plain_key ["p2"; "p3"; "p2"; "zz"; "p2"]) as Hall.
  { repeat constructor; apply Hplain; by apply (bool_decide_unpack _). }
  split.
  - destruct (manifest_counts_occurrences ["p2"; "p3"; "p2"; "zz"; "p2"] "p2" Hall)
      as [Hin _]; [apply Hplain; by apply (bool_decide_unpack _)|].
    destruct Hin as [-> _]; [by apply (bool_decide_unpack _) | reflexivity].
  - destruct (manifest_counts_occurrences ["p2"; "p3"; "p2"; "zz"; "p2"] "p1" Hall)
      as [_ Hout]; [apply Hplain; by apply (bool_decide_unpack _)|].
    apply Hout. by apply (bool_decide_unpack _).
Defined.

Lemma accepting_cons n answers :
  hd true answers = true -> accepting n (tl answers) -> accepting (S n) answers.
Proof.
  unfold accepting. destruct answers as [|a answers]; cbn.
  - intros _ _. constructor.
  - intros -> Hall. by constructor.
Qed.

(** The loop goes through only if Stripe accepts all it sends, and sends no
    session request. *)
Lemma line_items_loop_returned products productQuantities line_items account items :
  (line_items_loop products productQuantities line_items account).1 = Returned items ->
  accepting (2 * length products) (Stripe.answers account).
Proof.
  revert line_items account.
  induction products as [|product products IH]; intros line_items account; cbn.
  - intros _. unfold accepting. cbn. constructor.
  - replace (length products + S (length products + 0))%nat
      with (S (2 * length products)) by lia.
    unfold bind, Stripe.products_create, Stripe.prices_create, Stripe.send.
    destruct (hd true (Stripe.answers account)) eqn:Hfirst; cbn; [|discriminate].
    destruct (hd true (tl (Stripe.answers account))) eqn:Hsecond; cbn; [|discriminate].
    intros Hrest. apply IH in Hrest. cbn in Hrest.
    apply accepting_cons; [exact Hfirst|]. by apply accepting_cons.
Qed.

Lemma line_items_loop_sends products productQuantities line_items account :
  exists sent,
    Stripe.requests (line_items_loop products productQuantities line_items account).2 =
      Stripe.requests account ++ sent /\
    Forall (fun r => forall ps, r.1 <> Stripe.SessionsCreate ps) sent.
Proof.
  revert line_items account.
  induction products as [|product products IH]; intros line_items account; cbn.
  - exists []. by rewrite app_nil_r.
  - unfold bind, Stripe.products_create, Stripe.prices_create, Stripe.send.
    destruct (hd true (Stripe.answers account)); cbn;
      [|eexists [_]; split; [reflexivity | by repeat constructor]].
    destruct (hd true (tl (Stripe.answers account))); cbn;
      [|eexists [_; _]; split; [by rewrite <- app_assoc | by repeat constructor]].
    match goal with
    | |- context [line_items_loop products productQuantities ?l ?a] =>
        destruct (IH l a) as (sent & -> & Hsent)
    end.
    cbn. eexists (_ :: _ :: sent). split; [by rewrite <- !app_assoc|].
    by repeat constructor.
Qed.

Section CheckoutRejected.
Variable URL_origin : string -> option string.

(** X17: no session for a part of the products: for an authenticated user,
    when Stripe refuses one of the products or prices that a checkout past
    its referer creates, the checkout throws that refusal and has sent no
    session request. *)
Theorem rejected_checkout_requests_no_session (now : Z) (products : list string)
    (context : IUserContext) (cu : AuthUser) (url : option string) (w : World) :
  user context = Some cu ->
  origin URL_origin context = Returned url ->
  let found :=
    Product_find_in (Object_keys (fold_left count products ∅)) (Products (db w)) in
  ~ accepting (2 * length found) (Stripe.answers (stripe w)) ->
  let result := checkout URL_origin now products context w in
  result.1 = Thrown Stripe.rejected /\
  exists sent,
    Stripe.requests (stripe result.2) = Stripe.requests (stripe w) ++ sent /\
    Forall (fun r => forall ps, r.1 <> Stripe.SessionsCreate ps) sent.
Proof.
  intros Hcu Hurl found Hrefused result. unfold result.
  rewrite (checkout_authenticated _ _ _ _ cu url) by assumption.
  unfold payment_session, bind, onDB, onStripe, get, ret.
  cbn [db stripe Order.products]. rewrite Products_recorded. fold found.
  pose proof (line_items_loop_returned found (fold_left count products ∅) []
                (stripe w)) as Hreturned.
  pose proof (line_items_loop_sends found (fold_left count products ∅) []
                (stripe w)) as Hsends.
  pose proof (line_items_loop_throws found (fold_left count products ∅) []
                (stripe w)) as Hthrows.
  destruct (line_items_loop found _ [] (stripe w)) as [[items|e] account'].
  - destruct Hrefused. by eapply Hreturned.
  - cbn in *. split; [by rewrite (Hthrows e eq_refl) | exact Hsends].
Qed.
End CheckoutRejected.

(** Stripe takes the mug and refuses its price. *)
Lemma rejected_checkout_requests_no_session_witness :
  let w := mkWorld shop (account [true; false]) in
  let result := checkout http_origin 42 ["p1"; "p2"] as_alice w in
  result.1 = Thrown Stripe.rejected /\
  exists sent,
    Stripe.requests (stripe result.2) = Stripe.requests (stripe w) ++ sent /\
    Forall (fun r => forall ps, r.1 <> Stripe.SessionsCreate ps) sent.
Proof.
  apply (rejected_checkout_requests_no_session http_origin 42 ["p1"; "p2"] as_alice alice
           (Some "http://localhost:3000") (mkWorld shop (account [true; false])));
    [reflexivity | reflexivity |].
  intros Hall. vm_compute in Hall.
  apply Forall_cons in Hall as [_ Hall]. apply Forall_cons in Hall as [Hfalse _].
  discriminate.
Defined.

Lemma items_priced (q : Product.t -> option Z) old found productQuantities rest answers :
  Forall (fun p => productQuantities !! Product._id p = q p) found ->
  Forall2
    (fun item p =>
       Stripe.quantity item = q p /\
       priced (Stripe.mk (old ++ requests_for (length old) found ++ rest) answers) item p)
    (line_items_for (length old) found productQuantities) found.
Proof.
  intros Hq. revert old. induction Hq as [|p found Hp _ IH]; intros old; cbn;
    constructor.
  - split; [exact Hp|]. eexists.
    split; [retrieve_at 1%nat | apply unit_amount_sale_aware].
  - specialize (IH (old ++ [(Stripe.ProductsCreate
                               (Stripe.mkProduct (Product.name p) (Product.description p)
                                  [Product.imageUrl p]), true);
                            (Stripe.PricesCreate
                               (Stripe.mkPrice (length old) (unit_amount_of p) "usd"),
                             true)])).
    rewrite length_app in IH. cbn [length] in IH.
    replace (length old + 2)%nat with (S (S (length old))) in IH by lia.
    by rewrite <- app_assoc in IH.
Qed.

Lemma accepting_last n answers :
  accepting (S n) answers -> accepting n answers /\ hd true (drop n answers) = true.
Proof.
  revert answers. induction n as [|n IH]; intros answers Hall.
  - apply accepting_S in Hall as [Hhd _]. split; [|exact Hhd].
    unfold accepting. cbn. constructor.
  - apply accepting_S in Hall as [Hhd Hall]. apply IH in Hall as [Hall Hlast].
    split; [by apply accepting_cons|]. by destruct answers.
Qed.

Lemma Forall2_diagonal {A} (R : A -> A -> Prop) (l : list A) :
  (forall x, R x x) -> Forall2 R l l.
Proof. intros Hrefl. apply Forall_Forall2_diag, Forall_forall. by intros. Qed.

Lemma Forall2_save {D : Type} `{Document D} (R : D -> D -> Prop) (d u : D) (c : list D) :
  (forall x, R x x) -> findById (doc_id d) c = Some u -> R u d ->
  Forall2 R c (save d c).
Proof.
  intros Hrefl Hu HR. induction c as [|x c IH]; cbn in *; [constructor|].
  case_bool_decide as Hx.
  - injection Hu as ->. constructor; [exact HR|]. by apply Forall2_diagonal.
  - constructor; [apply Hrefl | by apply IH].
Qed.

Section CheckoutMore.
Variable URL_origin : string -> option string.

(** X18: for an authenticated user and any list of identifiers, when Stripe
    accepts the products and prices of a checkout past its referer, the
    checkout sends a product and a price for each product of the catalog
    that the list names and then one session request, whose line items,
    one per such product in the order of the catalog, carry the number of
    times the list names the product and the price created for it from
    its sale price, when on sale with a sale price that counts as true, or
    else from its list price. *)
Theorem checkout_line_items (now : Z) (products : list string)
    (context : IUserContext) (cu : AuthUser) (url : option string) (w : World) :
  user context = Some cu ->
  origin URL_origin context = Returned url ->
  let found :=
    Product_find_in (Object_keys (fold_left count products ∅)) (Products (db w)) in
  let next := length (Stripe.requests (stripe w)) in
  accepting (2 * length found) (Stripe.answers (stripe w)) ->
  let result := checkout URL_origin now products context w in
  exists params verdict,
    Stripe.requests (stripe result.2) =
      Stripe.requests (stripe w) ++ requests_for next found ++
      [(Stripe.SessionsCreate params, verdict)] /\
    Forall2
      (fun item p =>
         Stripe.quantity item = Some (occurrences (Product._id p) products) /\
         priced (stripe result.2) item p)
      (Stripe.line_items params) found.
Proof.
  intros Hcu Hurl found next Hall result. unfold result.
  rewrite (checkout_authenticated _ _ _ _ cu url) by assumption.
  pose proof (payment_session_accepted url (Order.mk products now)
                (mkWorld (recorded cu (Order.mk products now) (db w)) (stripe w)))
    as Haccepted.
  cbn [db stripe Order.products] in Haccepted.
  rewrite Products_recorded in Haccepted. fold found next in Haccepted.
  rewrite (Haccepted Hall). cbn [snd stripe Stripe.requests].
  do 2 eexists. split; [reflexivity|]. cbn [Stripe.line_items session_params].
  apply items_priced. apply Forall_forall. intros p Hp.
  apply found_in_catalog in Hp as [_ Hin].
  rewrite manifest_lookup. by rewrite decide_True.
Qed.

(** X19: a checkout, whoever calls it and whatever Stripe answers, leaves
    every product (it takes nothing off a stock) and every category as
    they were, keeps the users and their baskets (the basket is not
    emptied), and removes no order: the orders of a user before it are
    the first orders of the user after it. *)
Theorem checkout_keeps_catalog_and_baskets (now : Z) (products : list string)
    (context : IUserContext) (w : World) :
  let store' := db (checkout URL_origin now products context w).2 in
  Products store' = Products (db w) /\
  Categories store' = Categories (db w) /\
  Forall2
    (fun u u' =>
       User._id u' = User._id u /\ User.basket u' = User.basket u /\
       User.orders u `prefix_of` User.orders u')
    (Users (db w)) (Users store').
Proof.
  assert (forall us : list User.t,
            Forall2 (fun u u' => User._id u' = User._id u /\
                                 User.basket u' = User.basket u /\
                                 User.orders u `prefix_of` User.orders u') us us)
    as Hrefl by (intros us; by apply Forall2_diagonal).
  cbv zeta. unfold checkout, bind, settle.
  destruct (origin URL_origin context) as [url|e]; [|by cbn].
  destruct (user context) as [cu|]; [|by cbn].
  unfold onDB. rewrite record_order_recorded, payment_session_db.
  cbn [db]. unfold recorded.
  destruct (findById (auth_id cu) (Users (db w))) as [u|] eqn:Hu; [|by cbn].
  cbn [Products Categories Users with_Users]. split; [reflexivity|].
  split; [reflexivity|].
  apply findById_Some in Hu as Hid. destruct Hid as [_ Hid].
  apply (Forall2_save _ _ u); [done | by rewrite <- Hid in Hu |].
  cbn. split; [reflexivity|]. split; [reflexivity|]. by apply prefix_app_r.
Qed.

(** X20: an identity without a record pays all the same: for an
    authenticated user whose record the store does not hold, a checkout
    past its referer records no order, with any user, and goes on to
    Stripe; when Stripe accepts all it is sent, the checkout returns the
    session. *)
Theorem checkout_without_record (now : Z) (products : list string)
    (context : IUserContext) (cu : AuthUser) (url : option string) (w : World) :
  user context = Some cu ->
  origin URL_origin context = Returned url ->
  findById (auth_id cu) (Users (db w)) = None ->
  let found :=
    Product_find_in (Object_keys (fold_left count products ∅)) (Products (db w)) in
  accepting (S (2 * length found)) (Stripe.answers (stripe w)) ->
  let result := checkout URL_origin now products context w in
  db result.2 = db w /\
  exists session params,
    result.1 = Returned session /\
    last (Stripe.requests (stripe result.2)) = Some (Stripe.SessionsCreate params, true) /\
    length (Stripe.line_items params) = length found.
Proof.
  intros Hcu Hurl Hnone found Hall result. unfold result.
  rewrite (checkout_authenticated _ _ _ _ cu url) by assumption.
  unfold recorded. rewrite Hnone.
  apply accepting_last in Hall as [Hall Hlast].
  pose proof (payment_session_accepted url (Order.mk products now)
                (mkWorld (db w) (stripe w))) as Haccepted.
  cbn [db stripe Order.products] in Haccepted. fold found in Haccepted.
  rewrite (Haccepted Hall), Hlast. cbn [fst snd db stripe Stripe.requests].
  split; [reflexivity|]. do 2 eexists. split; [reflexivity|].
  rewrite !app_assoc, last_snoc. split; [reflexivity|].
  cbn. apply length_line_items_for.
Qed.

(** X21: a request without headers has no origin to go back to: for an
    authenticated user and a context without headers, a checkout does not
    stop at the referer, and when Stripe accepts the products and prices,
    the session it requests has the success and cancel addresses built on
    the word "undefined". *)
Theorem checkout_without_headers (now : Z) (products : list string)
    (context : IUserContext) (cu : AuthUser) (w : World) :
  user context = Some cu ->
  headers context = None ->
  let found :=
    Product_find_in (Object_keys (fold_left count products ∅)) (Products (db w)) in
  accepting (2 * length found) (Stripe.answers (stripe w)) ->
  let result := checkout URL_origin now products context w in
  exists sent params verdict,
    Stripe.requests (stripe result.2) =
      Stripe.requests (stripe w) ++ sent ++ [(Stripe.SessionsCreate params, verdict)] /\
    Stripe.success_url params = "undefined/success?session_id={CHECKOUT_SESSION_ID}" /\
    Stripe.cancel_url params = "undefined/cart".
Proof.
  intros Hcu Hheaders found Hall result. unfold result.
  rewrite (checkout_authenticated _ _ _ _ cu None);
    [|assumption | unfold origin; by rewrite Hheaders].
  pose proof (payment_session_accepted None (Order.mk products now)
                (mkWorld (recorded cu (Order.mk products now) (db w)) (stripe w)))
    as Haccepted.
  cbn [db stripe Order.products] in Haccepted.
  rewrite Products_recorded in Haccepted. fold found in Haccepted.
  rewrite (Haccepted Hall). cbn [snd stripe Stripe.requests].
  do 3 eexists. split; [reflexivity|]. split; reflexivity.
Qed.
End CheckoutMore.

Lemma accepting_nil n : accepting n [].
Proof. unfold accepting. rewrite take_nil. constructor. Qed.

(** Three pens, a flyer and an identifier without a product. *)
Lemma checkout_line_items_witness :
  let products := ["p2"; "p3"; "p2"; "zz"; "p2"] in
  let w := mkWorld shop (account []) in
  let found := Product_find_in (Object_keys (fold_left count products ∅)) (Products shop) in
  let result := checkout http_origin 42 products as_alice w in
  exists params verdict,
    Stripe.requests (stripe result.2) =
      Stripe.requests (stripe w) ++ requests_for 0 found ++
      [(Stripe.SessionsCreate params, verdict)] /\
    Forall2
      (fun item p =>
         Stripe.quantity item = Some (occurrences (Product._id p) products) /\
         priced (stripe result.2) item p)
      (Stripe.line_items params) found.
Proof.
  apply (checkout_line_items http_origin 42 ["p2"; "p3"; "p2"; "zz"; "p2"] as_alice alice
           (Some "http://localhost:3000") (mkWorld shop (account [])));
    [reflexivity | reflexivity |].
  apply accepting_nil.
Defined.

(** Carol, who has no record, checks out a pen. *)
Lemma checkout_without_record_witness :
  let w := mkWorld shop (account []) in
  let result := checkout http_origin 42 ["p2"] as_carol w in
  db result.2 = shop /\
  exists session params,
    result.1 = Returned session /\
    last (Stripe.requests (stripe result.2)) = Some (Stripe.SessionsCreate params, true) /\
    length (Stripe.line_items params) = 1%nat.
Proof.
  apply (checkout_without_record http_origin 42 ["p2"] as_carol carol
           (Some "http://localhost:3000") (mkWorld shop (account [])));
    [reflexivity | reflexivity | reflexivity |].
  apply accepting_nil.
Defined.

(** Alice checks out a pen through a request without headers. *)
Lemma checkout_without_headers_witness :
  let w := mkWorld shop (account []) in
  let result := checkout http_origin 42 ["p2"] (mkContext (Some alice) None) w in
  exists sent params verdict,
    Stripe.requests (stripe result.2) =
      Stripe.requests (stripe w) ++ sent ++ [(Stripe.SessionsCreate params, verdict)] /\
    Stripe.success_url params = "undefined/success?session_id={CHECKOUT_SESSION_ID}" /\
    Stripe.cancel_url params = "undefined/cart".
Proof.
  apply (checkout_without_headers http_origin 42 ["p2"] (mkContext (Some alice) None) alice
           (mkWorld shop (account []))); [reflexivity | reflexivity |].
  apply accepting_nil.
Defined.

(** ** Queries *)

(** X22: [categoryByName] never tells that a category is missing: for a name
    no document has, the not-found error it throws is caught by its own
    handler and the error thrown in its place carries no code; for a name
    some document has, the first such document is returned with the
    products of the catalog among its references. *)
Theorem categoryByName_hides_not_found (categoryName : string)
    (s : list CategoryName.t * list Product.t) :
  let named c := bool_decide (CategoryName.name c = categoryName) in
  (List.find named s.1 = None ->
     categoryByName categoryName s = (Thrown fetchingCategoryByName, s)) /\
  (forall category, List.find named s.1 = Some category ->
     categoryByName categoryName s =
       (Returned (category, populate_products s.2 (CategoryName.products category)), s)) /\
  (forall e, (categoryByName categoryName s).1 = Thrown e ->
     e = fetchingCategoryByName /\ error_code e <> Some "NOT_FOUND").
Proof.
  intros named. unfold categoryByName, try_catch, bind, get, ret, throw. fold named.
  destruct (List.find named s.1) as [category|]; cbn.
  - split; [discriminate|]. split; [by intros ? [= <-] | discriminate].
  - split; [reflexivity|]. split; [discriminate|].
    intros e [= <-]. split; [reflexivity | discriminate].
Qed.

Lemma populate_item_deleted (productId : string) (catalog : list Product.t)
    (item : BasketItem.t) :
  NoDup (Product._id <$> catalog) ->
  populated_product (populate_item (delete_first productId catalog) item) =
    if decide (BasketItem.product item = productId) then None
    else populated_product (populate_item catalog item).
Proof.
  intros Hnodup. unfold populate_item. cbn. case_decide as Hitem.
  - rewrite Hitem. by apply (findById_delete_first (H := Product_Document)).
  - by apply findById_delete_first_ne.
Qed.

(** X23: deleting a product leaves the lines that name it in the baskets:
    on a catalog with one product per identifier, after an authenticated
    [removeProduct], [me] returns a user with the same basket lines as
    before, the lines of the deleted product populated with [null] and
    the others with their product as before. *)
Theorem me_after_removeProduct (productId : string) (context remover : IUserContext)
    (cu admin : AuthUser) (store : DB) (u : User.t) :
  user context = Some cu ->
  user remover = Some admin ->
  findById (auth_id cu) (Users store) = Some u ->
  NoDup (Product._id <$> Products store) ->
  let store' := (removeProduct productId remover store).2 in
  exists lines,
    me context store' = (Returned (Some (u, lines)), store') /\
    Forall2
      (fun item line =>
         populated_quantity line = BasketItem.quantity item /\
         populated_product line =
           if decide (BasketItem.product item = productId) then None
           else findById (BasketItem.product item) (Products store))
      (User.basket u) lines.
Proof.
  intros Hcu Hadmin Hu Hnodup store'. subst store'.
  unfold removeProduct, findByIdAndDelete, me. rewrite Hcu, Hadmin. step_async.
  cbn [Users Products with_Products]. rewrite Hu.
  eexists. split; [reflexivity|].
  apply Forall2_fmap_r, Forall2_diagonal. intros item.
  split; [reflexivity|]. by apply populate_item_deleted.
Qed.

(** Bob deletes the pen; alice still has her three pens in the basket,
    with no product behind them. *)
Lemma me_after_removeProduct_witness :
  let store' := (removeProduct "p2" as_bob busy_shop).2 in
  exists lines,
    me as_alice store' = (Returned (Some (shopper, lines)), store') /\
    Forall2
      (fun item line =>
         populated_quantity line = BasketItem.quantity item /\
         populated_product line =
           if decide (BasketItem.product item = "p2") then None
           else findById (BasketItem.product item) (Products busy_shop))
      (User.basket shopper) lines.
Proof.
  apply (me_after_removeProduct "p2" as_alice as_bob alice bob busy_shop shopper);
    [reflexivity | reflexivity | reflexivity |].
  by apply (bool_decide_unpack _).
Defined.

Section LoginFacts.
Variable isCorrectPassword : User.t -> string -> bool.
Variable signToken : string -> string -> string -> string.

(** X24: [login] writes nothing and throws one error only: an email no user
    has and a wrong password for the first user with the email give the
    same incorrect-credentials error, of code FORBIDDEN; the right password
    returns that user with a token signed for the username, the email and
    the identifier. *)
Theorem login_tells_nothing (email password : string) (store : DB) :
  let registered u := bool_decide (User.email u = email) in
  let result := login isCorrectPassword signToken email password store in
  result.2 = store /\
  (forall e, result.1 = Thrown e ->
     e = incorrectCredentials /\
     (List.find registered (Users store) = None \/
      exists u, List.find registered (Users store) = Some u /\
                isCorrectPassword u password = false)) /\
  (forall token u, result.1 = Returned (token, u) ->
     List.find registered (Users store) = Some u /\
     isCorrectPassword u password = true /\
     token = signToken (User.username u) (User.email u) (User._id u)).
Proof.
  intros registered result. subst result. unfold login. step_async. fold registered.
  destruct (List.find registered (Users store)) as [u|]; cbn.
  - destruct (isCorrectPassword u password) eqn:Hpassword; cbn.
    + split; [reflexivity|]. split; [discriminate|]. by intros ? ? [= <- <-].
    + split; [reflexivity|]. split; [|discriminate].
      intros e [= <-]. split; [reflexivity|]. right. by exists u.
  - split; [reflexivity|]. split; [|discriminate].
    intros e [= <-]. split; [reflexivity|]. by left.
Qed.
End LoginFacts.
